(** * Secure password generator: a shallow embedding of
    [password_generator.py] and the properties of its specification.

    The generator draws characters through [random.choice] and permutes
    them with [random.shuffle].  Both are methods of Python's [random]
    module and both obtain every random number through one primitive,
    [_randbelow(n)], which yields an integer in [0, n).  The randomness
    source is therefore modelled as a script of raw draws that is threaded
    through the computation by a state monad; [IndexError], the only
    exception the library calls involved can raise, is part of the monad's
    result. *)

From Stdlib Require Import ZArith Ascii String Permutation Lia.
From Stdlib.Strings Require Import Byte.
From stdpp Require Import base list strings.

(** ** The randomness source and the monad of the embedding *)

(** A script of raw draws.  Draw number [k] of a run takes entry [k] of
    the script; a script that is used up keeps answering [0]. *)
Definition Rng : Type := list nat.

Inductive exn : Type := IndexError.

Inductive result (A : Type) : Type :=
| Ok (a : A) (s : Rng)
| Raise (e : exn).

Arguments Ok {A} a s.
Arguments Raise {A} e.

Definition M (A : Type) : Type := Rng → result A.

Definition ret {A} (a : A) : M A := λ s, Ok a s.

Definition bind {A B} (m : M A) (k : A → M B) : M B :=
  λ s, match m s with
       | Ok a s' => k a s'
       | Raise e => Raise e
       end.

Definition raise {A} (e : exn) : M A := λ _, Raise e.

Notation "x <- m ;; k" := (bind m (λ x, k))
  (at level 100, m at next level, right associativity,
   format "'[v' x  <-  m  ;;  '/' k ']'").

(** [random._randbelow(n)] for [n > 0]: a value in [0, n), here the next
    raw draw reduced modulo [n]. *)
Definition randbelow (n : nat) : M nat :=
  λ s, match s with
       | [] => Ok 0 []
       | r :: s' => Ok (r `mod` n) s'
       end.

(** [random.choice(seq)]: [IndexError] on an empty sequence, otherwise
    [seq[_randbelow(len(seq))]]. *)
Definition choice {A} (seq : list A) : M A :=
  match seq with
  | [] => raise IndexError
  | _ :: _ =>
      i <- randbelow (length seq) ;;
      match seq !! i with
      | Some c => ret c
      | None => raise IndexError
      end
  end.

(** [x[i], x[j] = x[j], x[i]]: the right-hand side reads [x[j]] and then
    [x[i]], either of which raises [IndexError] out of range; then [x[i]]
    and [x[j]] are assigned in that order. *)
Definition swap {A} (x : list A) (i j : nat) : M (list A) :=
  match x !! j with
  | None => raise IndexError
  | Some xj =>
      match x !! i with
      | None => raise IndexError
      | Some xi => ret (<[j:=xi]> (<[i:=xj]> x))
      end
  end.

(** The loop of [random.shuffle(x)]:
    [for i in reversed(range(1, len(x))): j = randbelow(i + 1); swap]. *)
Fixpoint shuffle_from {A} (i : nat) (x : list A) : M (list A) :=
  match i with
  | O => ret x
  | S i' =>
      j <- randbelow (i + 1) ;;
      x' <- swap x i j ;;
      shuffle_from i' x'
  end.

Definition shuffle {A} (x : list A) : M (list A) :=
  shuffle_from (length x - 1) x.

(** [for _ in range(n): body], with the loop-carried state made explicit. *)
Fixpoint for_range {S} (n : nat) (body : S → M S) (st : S) : M S :=
  match n with
  | O => ret st
  | S n' => st' <- body st ;; for_range n' body st'
  end.

(** ** Strings *)

(** The characters of a Python [str], in order. *)
Definition chars (s : string) : list ascii := list_ascii_of_string s.

(** ["".join(l)] for a list of one-character strings. *)
Definition join (l : list ascii) : string := string_of_list_ascii l.

(** The constants of Python's [string] module. *)
Definition ascii_lowercase : string := "abcdefghijklmnopqrstuvwxyz".
Definition ascii_uppercase : string := "ABCDEFGHIJKLMNOPQRSTUVWXYZ".
Definition string_digits : string := "0123456789".
Definition punctuation : string :=
  "!" +:+ String (ascii_of_nat 34) "#$%&'()*+,-./:;<=>?@[\]^_`{|}~".

(** ** [generate_secure_password] *)

Definition lowercase_chars : string := ascii_lowercase.
Definition uppercase_chars : string := ascii_uppercase.
Definition digits : string := string_digits.
Definition special_chars : string := punctuation.

Definition all_chars : string :=
  lowercase_chars +:+ uppercase_chars +:+ digits +:+ special_chars.

(** The function returns [None] for an invalid length and the password
    otherwise; Python's [None] is [None] of [option]. *)
Definition generate_secure_password (length_ : Z) : M (option string) :=
  if (length_ <? 4)%Z then ret None
  else
    c1 <- choice (chars lowercase_chars) ;;
    c2 <- choice (chars uppercase_chars) ;;
    c3 <- choice (chars digits) ;;
    c4 <- choice (chars special_chars) ;;
    let password_list := [c1; c2; c3; c4] in
    password_list <-
      for_range (Z.to_nat (length_ - Z.of_nat (length password_list))%Z)
        (λ password_list,
           c <- choice (chars all_chars) ;;
           ret (password_list ++ [c]))
        password_list ;;
    password_list <- shuffle password_list ;;
    ret (Some (join password_list)).

(** ** Character classes, counting and positions *)

(** Membership of a character in a class, the class being given by the
    string that lists its characters. *)
Definition in_class (cls : string) (c : ascii) : Prop := c ∈ chars cls.

Global Instance in_class_dec cls c : Decision (in_class cls c).
Proof. unfold in_class. apply _. Defined.

(** How many characters of [pw] belong to the class [cls]. *)
Definition count_class (cls : string) (pw : string) : nat :=
  length (filter (in_class cls) (chars pw)).

(** How often the character [c] occurs in [pw]. *)
Definition occurrences (c : ascii) (pw : string) : nat :=
  length (filter (λ d, d = c) (chars pw)).

(** The index of the first occurrence of [c], as [str.find] gives it. *)
Fixpoint position (c : ascii) (l : list ascii) : option nat :=
  match l with
  | [] => None
  | d :: l' => if decide (d = c) then Some 0 else S <$> position c l'
  end.

(** ** [str.strip] and [str.encode] *)

(** [str.isspace] on one character, for the code points below 256. *)
Definition isspace (c : ascii) : bool :=
  bool_decide (nat_of_ascii c ∈ [9; 10; 11; 12; 13; 28; 29; 30; 31; 32; 133; 160]).

Fixpoint lstrip (l : list ascii) : list ascii :=
  match l with
  | [] => []
  | c :: l' => if isspace c then lstrip l' else l
  end.

Definition rstrip (l : list ascii) : list ascii := rev (lstrip (rev l)).

(** [text.strip()]: leading and trailing whitespace removed. *)
Definition strip (text : string) : string := join (rstrip (lstrip (chars text))).

(** UTF-8 of one code point below 256: one byte below 128, two above. *)
Definition utf8_char (c : ascii) : list byte :=
  let n := N_of_ascii c in
  if (n <? 128)%N then [byte_of_ascii c]
  else [byte_of_ascii (ascii_of_N (192 + n / 64));
        byte_of_ascii (ascii_of_N (128 + n `mod` 64))].

(** [text.encode('utf-8')]. *)
Definition encode_utf8 (text : string) : list byte :=
  flat_map utf8_char (chars text).

(** ** [copy_to_clipboard] *)

(** How launching an external program ends: it runs and exits with status
    zero, it runs and exits with another status, or the executable is
    missing ([FileNotFoundError]). *)
Inductive launch : Type := Exit0 | ExitNonZero | NotFound.

(** What the function depends on besides its argument: whether the
    [pyperclip] module was imported and, if so, whether [pyperclip.copy]
    succeeds ([Some true]) or raises [PyperclipException] ([Some false]);
    [sys.platform]; and what launching each program does. *)
Record Env : Type := {
  pyperclip : option bool;
  sys_platform : string;
  program : string → launch;
}.

(** What was handed to a clipboard mechanism: the text itself through
    [pyperclip], or the bytes piped to a program. *)
Inductive delivery : Type :=
| ViaPyperclip (text : string)
| ViaProgram (argv : list string) (input : list byte).

(** The value every fallback branch pipes to its program. *)
Definition fallback_input (text : string) : list byte :=
  encode_utf8 (strip text).

(** [subprocess.run(argv, input=..., check=True)] inside the outer
    [try]: a non-zero exit status raises [CalledProcessError] and a missing
    executable [FileNotFoundError], both caught by [except Exception]
    unless an inner handler takes the latter. *)
Definition fallback (env : Env) (text : string) : bool * option delivery :=
  if String.eqb (sys_platform env) "win32" then
    match program env "clip.exe" with
    | Exit0 => (true, Some (ViaProgram ["clip.exe"] (fallback_input text)))
    | ExitNonZero | NotFound => (false, None)
    end
  else if String.eqb (sys_platform env) "darwin" then
    match program env "pbcopy" with
    | Exit0 => (true, Some (ViaProgram ["pbcopy"] (fallback_input text)))
    | ExitNonZero => (true, None)
    | NotFound => (false, None)
    end
  else if String.prefix "linux" (sys_platform env) then
    match program env "xclip" with
    | Exit0 =>
        (true, Some (ViaProgram ["xclip"; "-selection"; "clipboard"]
                                (fallback_input text)))
    | ExitNonZero => (false, None)
    | NotFound =>
        match program env "xsel" with
        | Exit0 => (true, Some (ViaProgram ["xsel"; "-b"] (fallback_input text)))
        | ExitNonZero => (false, None)
        | NotFound => (false, None)
        end
    end
  else (false, None).

(** The returned flag together with what reached the clipboard, if
    anything did.  The messages printed on the way are left out. *)
Definition copy_to_clipboard (env : Env) (text : string) : bool * option delivery :=
  match pyperclip env with
  | Some true => (true, Some (ViaPyperclip text))
  | Some false | None => fallback env text
  end.

(** ** The algorithm in the words of the specification *)

Module Spec.

(** "select exactly one random character from each of the four
    classes" *)
Definition select_one_per_class : M (list ascii) :=
  c1 <- choice (chars ascii_lowercase) ;;
  c2 <- choice (chars ascii_uppercase) ;;
  c3 <- choice (chars string_digits) ;;
  c4 <- choice (chars punctuation) ;;
  ret [c1; c2; c3; c4].

(** The union of the four classes. *)
Definition union : list ascii :=
  chars ascii_lowercase ++ chars ascii_uppercase ++
  chars string_digits ++ chars punctuation.

(** "[n] additional characters chosen from the union" *)
Fixpoint additional (n : nat) : M (list ascii) :=
  match n with
  | O => ret []
  | S n' => c <- choice union ;; cs <- additional n' ;; ret (c :: cs)
  end.

(** "select ...; append [length - 4] additional characters ...; perform
    a permutation over the resulting sequence; concatenate to a string",
    under the input constraint [length >= 4]. *)
Definition generate (length_ : Z) : M (option string) :=
  if (4 <=? length_)%Z then
    guaranteed <- select_one_per_class ;;
    extra <- additional (Z.to_nat (length_ - 4)) ;;
    permuted <- shuffle (guaranteed ++ extra) ;;
    ret (Some (join permuted))
  else ret None.

End Spec.

(** ** What a computation reads from the script

    [reads k m P]: whatever the script, [m] returns normally with a value
    satisfying [P], it takes exactly the first [k] draws off the script,
    and the value it returns is the same on every script that starts with
    the same [k] draws. *)
Definition reads {A} (k : nat) (m : M A) (P : A → Prop) : Prop :=
  ∀ s, ∃ a, P a ∧ ∀ s2, take k s2 = take k s → m s2 = Ok a (drop k s2).

(** The number of draws one call makes: none for an invalid length, and
    otherwise four for the classes, [length - 4] for the fill and
    [length - 1] for the shuffle. *)
Definition draws (length_ : Z) : nat :=
  if (length_ <? 4)%Z then 0
  else 4 + Z.to_nat (length_ - 4) + (Z.to_nat length_ - 1).

(** The shape of a generated password: one character of each class, then
    [length - 4] characters of the union, all permuted and joined. *)
Definition built_from (length_ : Z) (r : option string) : Prop :=
  ∃ c1 c2 c3 c4 extra out,
    in_class lowercase_chars c1 ∧ in_class uppercase_chars c2 ∧
    in_class digits c3 ∧ in_class special_chars c4 ∧
    length extra = Z.to_nat (length_ - 4) ∧
    Forall (in_class all_chars) extra ∧
    out ≡ₚ [c1; c2; c3; c4] ++ extra ∧
    r = Some (join out).

(** Two scripts for a password of [4 + n] characters.  Both make the
    same choices: index 0 in each class, then index 1 of [all_chars] for
    every fill character.  In the shuffle, [script_still] answers [i] at
    every step [i], and [script_moved] does so down to step 4 and then
    answers 2, 2 and 0. *)
Definition script_choices (n : nat) : Rng := [0; 0; 0; 0] ++ repeat 1 n.

Definition script_still (n : nat) : Rng :=
  script_choices n ++ rev (seq 1 (n + 3)).

Definition script_moved (n : nat) : Rng :=
  script_choices n ++ rev (seq 4 n) ++ [2; 2; 0].

(** ** The messages of [copy_to_clipboard] *)

(** One write to standard output: a [print(s)], or the prompt that
    [input(s)] writes before it reads. *)
Inductive output : Type := Print (s : string) | Prompt (s : string).

(** The exceptions whose text [copy_to_clipboard] prints. *)
Inductive failure : Type :=
| PyperclipException
| CalledProcessError (argv : list string)
| FileNotFoundError (prog : string).

(** One event at the keyboard while [input] waits: a line is entered, or
    the user interrupts.  When the events are used up, standard input is
    at its end and [input] raises [EOFError]. *)
Inductive keyboard : Type := Line (text : string) | CtrlC.

(** An exception that nothing catches. *)
Inductive error : Type := EOFError | KeyboardInterrupt | Library (e : exn).

(** How the program ends: it runs to its last line, it calls
    [sys.exit()], or an uncaught exception ends it. *)
Inductive ending : Type := Finished | SysExit | Died (e : error).

(** What the length prompt ends with. *)
Inductive asked : Type := Got (n : Z) (rest : list keyboard) | Quit | Eof.

(** What one run of the program does: what it writes, how it ends, what
    it handed to a clipboard mechanism, and the randomness it left. *)
Record run : Type := {
  shown : list output;
  ended : ending;
  clipboard : option delivery;
  rng_left : Rng;
}.

(** The line feed, and [s * n] on strings. *)
Definition nl : string := String (ascii_of_nat 10) EmptyString.

Fixpoint str_mul (s : string) (n : nat) : string :=
  match n with
  | O => EmptyString
  | S n' => s +:+ str_mul s n'
  end.

Section Program.

(** The library functions the program reads its input with, and the text
    of the exceptions it prints: [int(s)] with [None] for [ValueError],
    [str.lower], and [str(e)]. *)
Variable int : string → option Z.
Variable lower : string → string.
Variable exc_text : failure → string.

Definition fallback_error (e : failure) : list output * (bool * option delivery) :=
  ([Print ("Error during clipboard copy fallback: " +:+ exc_text e)], (false, None)).

Definition fallback_io (env : Env) (text : string)
  : list output * (bool * option delivery) :=
  if String.eqb (sys_platform env) "win32" then
    match program env "clip.exe" with
    | Exit0 =>
        ([Print "Password copied to clipboard (Windows fallback)."],
         (true, Some (ViaProgram ["clip.exe"] (fallback_input text))))
    | ExitNonZero => fallback_error (CalledProcessError ["clip.exe"])
    | NotFound => fallback_error (FileNotFoundError "clip.exe")
    end
  else if String.eqb (sys_platform env) "darwin" then
    match program env "pbcopy" with
    | Exit0 =>
        ([Print "Password copied to clipboard (macOS fallback)."],
         (true, Some (ViaProgram ["pbcopy"] (fallback_input text))))
    | ExitNonZero =>
        ([Print "Password copied to clipboard (macOS fallback)."], (true, None))
    | NotFound => fallback_error (FileNotFoundError "pbcopy")
    end
  else if String.prefix "linux" (sys_platform env) then
    match program env "xclip" with
    | Exit0 =>
        ([Print "Password copied to clipboard (Linux - xclip fallback)."],
         (true, Some (ViaProgram ["xclip"; "-selection"; "clipboard"]
                                 (fallback_input text))))
    | ExitNonZero =>
        fallback_error (CalledProcessError ["xclip"; "-selection"; "clipboard"])
    | NotFound =>
        match program env "xsel" with
        | Exit0 =>
            ([Print "Password copied to clipboard (Linux - xsel fallback)."],
             (true, Some (ViaProgram ["xsel"; "-b"] (fallback_input text))))
        | ExitNonZero => fallback_error (CalledProcessError ["xsel"; "-b"])
        | NotFound =>
            ([Print "Could not copy to clipboard. Please install 'xclip' or 'xsel' (e.g., sudo apt install xclip or sudo apt install xsel)."],
             (false, None))
        end
    end
  else
    ([Print "Clipboard copying not natively supported on this OS without 'pyperclip' or additional setup."],
     (false, None)).

(** [copy_to_clipboard] with the lines it prints. *)
Definition copy_to_clipboard_io (env : Env) (text : string)
  : list output * (bool * option delivery) :=
  match pyperclip env with
  | Some true =>
      ([Print "Password copied to clipboard (via pyperclip)."],
       (true, Some (ViaPyperclip text)))
  | Some false =>
      let '(o, r) := fallback_io env text in
      (Print ("Could not copy to clipboard via pyperclip: " +:+
              exc_text PyperclipException)
       :: Print "Trying fallback methods..." :: o, r)
  | None => fallback_io env text
  end.

(** ** The program *)

Definition length_prompt : string :=
  "Enter the desired password length (minimum 4): ".

Definition copy_prompt : string :=
  "Do you want to copy the password to clipboard? (yes/no): ".

Definition failed_message : string :=
  "Password generation failed (due to invalid length or an internal error).".

(** The first [while True] loop: it asks until a line converts to an
    integer that is at least 4. *)
Fixpoint ask_length (keys : list keyboard) : list output * asked :=
  match keys with
  | [] => ([Prompt length_prompt], Eof)
  | CtrlC :: _ =>
      ([Prompt length_prompt;
        Print (nl +:+ "Exiting password generator. Goodbye!")], Quit)
  | Line desired_length_str :: keys' =>
      match int desired_length_str with
      | Some desired_length =>
          if (desired_length <? 4)%Z then
            let '(o, r) := ask_length keys' in
            (Prompt length_prompt
             :: Print "Password length must be at least 4. Please try again."
             :: o, r)
          else ([Prompt length_prompt], Got desired_length keys')
      | None =>
          let '(o, r) := ask_length keys' in
          (Prompt length_prompt
           :: Print "Invalid input. Please enter a number for the length."
           :: o, r)
      end
  end.

(** The second [while True] loop: it asks until the answer, in lower
    case, is [yes] or [no].  Nothing catches what [input] raises here. *)
Fixpoint ask_copy (env : Env) (generated_password : string) (keys : list keyboard)
  : list output * (option error * option delivery) :=
  match keys with
  | [] => ([Prompt copy_prompt], (Some EOFError, None))
  | CtrlC :: _ => ([Prompt copy_prompt], (Some KeyboardInterrupt, None))
  | Line answer :: keys' =>
      let copy_choice := lower answer in
      if String.eqb copy_choice "yes" then
        let '(o, (ok, d)) := copy_to_clipboard_io env generated_password in
        (Prompt copy_prompt
         :: o ++ (if ok then []
                  else [Print "Failed to copy password automatically. Please copy it manually:";
                        Print generated_password]),
         (None, d))
      else if String.eqb copy_choice "no" then
        ([Prompt copy_prompt; Print "Password not copied."], (None, None))
      else
        let '(o, r) := ask_copy env generated_password keys' in
        (Prompt copy_prompt
         :: Print "Invalid choice. Please enter 'yes' or 'no'." :: o, r)
  end.

Definition banner : list output :=
  [Print "Developed by Akash Madhukar";
   Print (str_mul "-" 30);
   Print "--- Secure Password Generator ---"].

Definition closing : list output :=
  [Print (nl +:+ str_mul "=" 40);
   Print "Connect with me on LinkedIn:";
   Print "Akash Madhukar";
   Print "Profile: https://www.linkedin.com/in/mrakashmadhukar/";
   Print (str_mul "=" 40);
   Print "Thank you for using the Secure Password Generator!";
   Print "Stay secure!"].

Definition pyperclip_note (env : Env) : list output :=
  match pyperclip env with
  | None =>
      [Print (nl +:+ "Note: 'pyperclip' library not found. Clipboard functionality might be limited or require manual copy.");
       Print "To enable robust clipboard copying, install it: pip install pyperclip"]
  | Some _ => []
  end.

(** The block under [if __name__ == "__main__"].  [if generated_password]
    holds for a string that is not empty. *)
Definition main (env : Env) (keys : list keyboard) (rng : Rng) : run :=
  match ask_length keys with
  | (o1, Quit) =>
      {| shown := banner ++ o1; ended := SysExit;
         clipboard := None; rng_left := rng |}
  | (o1, Eof) =>
      {| shown := banner ++ o1; ended := Died EOFError;
         clipboard := None; rng_left := rng |}
  | (o1, Got desired_length keys') =>
      match generate_secure_password desired_length rng with
      | Raise e =>
          {| shown := banner ++ o1; ended := Died (Library e);
             clipboard := None; rng_left := rng |}
      | Ok (Some (String _ _ as generated_password)) rng' =>
          let o2 := Print (nl +:+ "Your generated password: " +:+ generated_password)
                    :: pyperclip_note env in
          match ask_copy env generated_password keys' with
          | (o3, (Some e, d)) =>
              {| shown := banner ++ o1 ++ o2 ++ o3; ended := Died e;
                 clipboard := d; rng_left := rng' |}
          | (o3, (None, d)) =>
              {| shown := banner ++ o1 ++ o2 ++ o3 ++ closing; ended := Finished;
                 clipboard := d; rng_left := rng' |}
          end
      | Ok _ rng' =>
          {| shown := banner ++ o1 ++ [Print failed_message] ++ closing;
             ended := Finished; clipboard := None; rng_left := rng' |}
      end
  end.

End Program.

(** A stand-in for [int] on two inputs and for [str.lower] on strings
    that are in lower case already, to run the program on examples. *)
Definition int_sample (s : string) : option Z :=
  if String.eqb s "12" then Some 12%Z
  else if String.eqb s "3" then Some 3%Z
  else None.

Definition lower_sample (s : string) : string := s.

Definition exc_text_sample (e : failure) : string := "error".

(** A Linux machine without [pyperclip] and without [xclip], on which
    [xsel] works. *)
Definition env_sample : Env :=
  {| pyperclip := None; sys_platform := "linux";
     program := λ p, if String.eqb p "xsel" then Exit0 else NotFound |}.

(** The length a line is accepted with at the first prompt, if it is. *)
Definition accepted (int : string → option Z) (line : string) : option Z :=
  match int line with
  | Some n => if (n <? 4)%Z then None else Some n
  | None => None
  end.

(** What the first prompt answers to a line it does not accept. *)
Definition complaint (int : string → option Z) (line : string) : output :=
  match int line with
  | Some _ => Print "Password length must be at least 4. Please try again."
  | None => Print "Invalid input. Please enter a number for the length."
  end.

(** What the first prompt writes while it turns the lines [bad] down, and
    what the second writes while it gets the answers [wrong]. *)
Definition length_retries (int : string → option Z) (bad : list string)
  : list output :=
  flat_map (λ b, [Prompt length_prompt; complaint int b]) bad.

Definition copy_retries (wrong : list string) : list output :=
  flat_map (λ _ : string,
              [Prompt copy_prompt;
               Print "Invalid choice. Please enter 'yes' or 'no'."]) wrong.

(** The line that shows the password, with the note that follows it when
    [pyperclip] is missing. *)
Definition password_lines (env : Env) (pw : string) : list output :=
  Print (nl +:+ "Your generated password: " +:+ pw) :: pyperclip_note env.


Section Reads.

Context {A B : Type}.

Lemma reads_ret (a : A) (P : A → Prop) : P a → reads 0 (ret a) P.
Proof. intros Pa s. exists a. split; [done|]. intros s2 _. by rewrite drop_0. Qed.

Lemma reads_weaken k (m : M A) (P Q : A → Prop) :
  (∀ a, P a → Q a) → reads k m P → reads k m Q.
Proof.
  intros PQ Hm s. destruct (Hm s) as (a & Pa & Ha). exists a. auto.
Qed.

Lemma reads_draws k k' (m : M A) (P : A → Prop) :
  k = k' → reads k m P → reads k' m P.
Proof. by intros ->. Qed.

Lemma reads_bind k1 k2 (m : M A) (f : A → M B) (P : A → Prop) (Q : B → Prop) :
  reads k1 m P →
  (∀ a, P a → reads k2 (f a) Q) →
  reads (k1 + k2) (bind m f) Q.
Proof.
  intros Hm Hf s.
  destruct (Hm s) as (a & Pa & Ha).
  destruct (Hf a Pa (drop k1 s)) as (b & Qb & Hb).
  exists b. split; [done|]. intros s2 E.
  assert (E1 : take k1 s2 = take k1 s).
  { apply (f_equal (take k1)) in E.
    rewrite !take_take in E. by replace (k1 `min` (k1 + k2)) with k1 in E by lia. }
  assert (E2 : take k2 (drop k1 s2) = take k2 (drop k1 s)).
  { rewrite !take_drop_commute. by rewrite E. }
  unfold bind. rewrite (Ha s2 E1), (Hb _ E2), drop_drop. done.
Qed.

End Reads.

Lemma reads_randbelow n : 0 < n → reads 1 (randbelow n) (λ j, j < n).
Proof.
  intros Hn [|r s].
  - exists 0. split; [done|]. by intros [|??] E.
  - exists (r `mod` n). split; [by apply Nat.mod_upper_bound; lia|].
    intros [|r2 s2] E; simplify_eq/=; by rewrite ?drop_0.
Qed.

Lemma reads_choice {A} (seq : list A) :
  seq ≠ [] → reads 1 (choice seq) (λ c, c ∈ seq).
Proof.
  intros Hne. destruct seq as [|a0 seq0]; [done|].
  unfold choice. set (seq := a0 :: seq0).
  apply (reads_bind 1 0 _ _ (λ j, j < length seq)).
  - apply reads_randbelow. simpl. lia.
  - intros j Hj. destruct (lookup_lt_is_Some_2 seq j Hj) as [c Hc].
    rewrite Hc. apply reads_ret. by eapply list_elem_of_lookup_2.
Qed.

Lemma reads_swap {A} (x : list A) i j :
  i < length x → j < length x → reads 0 (swap x i j) (λ x', x' ≡ₚ x).
Proof.
  intros Hi Hj.
  destruct (lookup_lt_is_Some_2 x i Hi) as [xi Ei].
  destruct (lookup_lt_is_Some_2 x j Hj) as [xj Ej].
  unfold swap. rewrite Ei, Ej. apply reads_ret.
  by apply Permutation_insert_swap.
Qed.

Lemma reads_shuffle_from {A} i (x : list A) :
  i < length x → reads i (shuffle_from i x) (λ x', x' ≡ₚ x).
Proof.
  revert x. induction i as [|i IH]; intros x Hi.
  - by apply reads_ret.
  - cbn [shuffle_from].
    apply (reads_bind 1 i _ _ (λ j, j < S i + 1)); [apply reads_randbelow; lia|].
    intros j Hj.
    apply (reads_bind 0 i _ _ (λ x', x' ≡ₚ x)); [apply reads_swap; lia|].
    intros x' Hx'. eapply reads_weaken; [|apply IH].
    + intros x'' Hx''. by rewrite Hx''.
    + rewrite Hx'. lia.
Qed.

Lemma reads_shuffle {A} (x : list A) :
  reads (length x - 1) (shuffle x) (λ x', x' ≡ₚ x).
Proof.
  unfold shuffle. destruct x as [|a x]; [by apply reads_ret|].
  apply reads_shuffle_from. simpl. lia.
Qed.

(** The fill loop of [generate_secure_password]. *)
Lemma reads_fill n (pl : list ascii) :
  reads n
    (for_range n (λ password_list,
                    c <- choice (chars all_chars) ;; ret (password_list ++ [c])) pl)
    (λ out, ∃ extra, out = pl ++ extra ∧ length extra = n ∧
                     Forall (in_class all_chars) extra).
Proof.
  revert pl. induction n as [|n IH]; intros pl.
  - apply reads_ret. exists []. by rewrite app_nil_r.
  - cbn [for_range].
    apply (reads_bind 1 n _ _ (λ pl', ∃ c, pl' = pl ++ [c] ∧ in_class all_chars c)).
    + apply (reads_bind 1 0 _ _ (in_class all_chars)); [by apply reads_choice|].
      intros c Hc. apply reads_ret. by exists c.
    + intros pl' (c & -> & Hc). eapply reads_weaken; [|apply IH].
      intros out (extra & -> & Hlen & Hall). exists (c :: extra).
      rewrite <- app_assoc. simpl. split_and!; [done|lia|by constructor].
Qed.

Lemma reads_generate_invalid (length_ : Z) :
  (length_ < 4)%Z → reads 0 (generate_secure_password length_) (λ r, r = None).
Proof.
  intros H. unfold generate_secure_password.
  destruct (Z.ltb_spec length_ 4); [by apply reads_ret|lia].
Qed.

Lemma reads_generate (length_ : Z) :
  (4 ≤ length_)%Z →
  reads (draws length_) (generate_secure_password length_) (built_from length_).
Proof.
  intros H. unfold generate_secure_password, draws.
  destruct (Z.ltb_spec length_ 4); [lia|].
  set (n := Z.to_nat (length_ - 4)).
  apply (reads_draws (1 + (1 + (1 + (1 + (n + ((4 + n - 1) + 0))))))); [unfold n; lia|].
  apply (reads_bind _ _ _ _ (in_class lowercase_chars)); [by apply reads_choice|].
  intros c1 H1.
  apply (reads_bind _ _ _ _ (in_class uppercase_chars)); [by apply reads_choice|].
  intros c2 H2.
  apply (reads_bind _ _ _ _ (in_class digits)); [by apply reads_choice|].
  intros c3 H3.
  apply (reads_bind _ _ _ _ (in_class special_chars)); [by apply reads_choice|].
  intros c4 H4.
  eapply reads_bind.
  { eapply reads_draws; [|apply reads_fill]. unfold n. simpl. lia. }
  intros pl (extra & -> & Hlen & Hall).
  eapply reads_bind.
  { eapply reads_draws; [|apply reads_shuffle]. simpl in *. rewrite Hlen. unfold n. lia. }
  intros out Hout. apply reads_ret.
  exists c1, c2, c3, c4, extra, out. split_and!; try done.
Qed.

(** Every call returns normally, with a value of the expected shape, after
    exactly [draws length] draws. *)
Lemma generate_run (length_ : Z) (s : Rng) :
  (4 ≤ length_)%Z →
  ∃ r, built_from length_ r ∧
       generate_secure_password length_ s = Ok r (drop (draws length_) s).
Proof.
  intros H. destruct (reads_generate length_ H s) as (r & Hr & Hrun).
  exists r. split; [done|]. by apply Hrun.
Qed.

(** ** Strings and classes *)

Lemma chars_join l : chars (join l) = l.
Proof. apply list_ascii_of_string_of_list_ascii. Qed.

Lemma length_join l : String.length (join l) = length l.
Proof. induction l as [|c l IH]; simpl; [done|]. by rewrite IH. Qed.

(** A decidable property of all characters of a class, checked by
    running through the class. *)
Lemma class_forall (P : ascii → Prop) `{∀ c, Decision (P c)} (cls : string) :
  bool_decide (Forall P (chars cls)) = true → ∀ c, in_class cls c → P c.
Proof.
  intros Hb c Hc. apply bool_decide_eq_true in Hb.
  by apply (proj1 (Forall_forall _ _) Hb).
Qed.

Ltac class_scan :=
  match goal with
  | |- ∀ c, in_class ?cls c → @?P c =>
      apply (class_forall P cls); vm_compute; reflexivity
  end.

Lemma all_chars_union :
  chars all_chars = chars lowercase_chars ++ chars uppercase_chars ++
                    chars digits ++ chars special_chars.
Proof. reflexivity. Qed.

Lemma in_all_chars c :
  in_class all_chars c ↔
  in_class lowercase_chars c ∨ in_class uppercase_chars c ∨
  in_class digits c ∨ in_class special_chars c.
Proof. unfold in_class. rewrite all_chars_union, !elem_of_app. tauto. Qed.

(** The four classes are pairwise disjoint. *)
Lemma lower_only c :
  in_class lowercase_chars c →
  ¬ in_class uppercase_chars c ∧ ¬ in_class digits c ∧ ¬ in_class special_chars c.
Proof. revert c. class_scan. Qed.

Lemma upper_only c :
  in_class uppercase_chars c →
  ¬ in_class lowercase_chars c ∧ ¬ in_class digits c ∧ ¬ in_class special_chars c.
Proof. revert c. class_scan. Qed.

Lemma digit_only c :
  in_class digits c →
  ¬ in_class lowercase_chars c ∧ ¬ in_class uppercase_chars c ∧
  ¬ in_class special_chars c.
Proof. revert c. class_scan. Qed.

Lemma special_only c :
  in_class special_chars c →
  ¬ in_class lowercase_chars c ∧ ¬ in_class uppercase_chars c ∧ ¬ in_class digits c.
Proof. revert c. class_scan. Qed.

(** No character of the four classes is whitespace, and all are ASCII. *)
Lemma all_chars_plain c :
  in_class all_chars c → isspace c = false ∧ (N_of_ascii c < 128)%N.
Proof. revert c. class_scan. Qed.

Lemma count_class_perm cls (out l : list ascii) :
  out ≡ₚ l → count_class cls (join out) = length (filter (in_class cls) l).
Proof. intros Hp. unfold count_class. by rewrite chars_join, Hp. Qed.

Lemma filter_length_pos {A} (P : A → Prop) `{∀ x, Decision (P x)} (l : list A) x :
  x ∈ l → P x → 1 ≤ length (filter P l).
Proof.
  intros Hx Px. assert (Hf : x ∈ filter P l) by by apply list_elem_of_filter.
  destruct (filter P l); [by apply elem_of_nil in Hf|simpl; lia].
Qed.

(** The characters of a generated password all come from [all_chars]. *)
Lemma built_from_all_chars (length_ : Z) c1 c2 c3 c4 extra :
  in_class lowercase_chars c1 → in_class uppercase_chars c2 →
  in_class digits c3 → in_class special_chars c4 →
  Forall (in_class all_chars) extra →
  Forall (in_class all_chars) ([c1; c2; c3; c4] ++ extra).
Proof.
  intros H1 H2 H3 H4 Hall. simpl.
  repeat (constructor; [apply in_all_chars; tauto|]). done.
Qed.

(** ** The properties of the specification *)

(** C1: for every length [L >= 4] and whatever the randomness source
    yields, [generate_secure_password(L)] returns a string of length
    exactly [L]. *)
Theorem generate_length (L : Z) (s : Rng) :
  (4 ≤ L)%Z →
  ∃ pw s', generate_secure_password L s = Ok (Some pw) s' ∧
           Z.of_nat (String.length pw) = L.
Proof.
  intros H. destruct (generate_run L s H) as (r & Hr & Hrun).
  destruct Hr as (c1 & c2 & c3 & c4 & extra & out & _ & _ & _ & _ & Hlen & _ & Hp & ->).
  exists (join out), (drop (draws L) s). split; [done|].
  rewrite length_join, Hp, length_app, Hlen. simpl. lia.
Qed.

Lemma generate_length_witness :
  ∃ pw s', generate_secure_password 6 [3; 1; 4; 1; 5; 9; 2; 6; 5; 3; 5] = Ok (Some pw) s' ∧
           Z.of_nat (String.length pw) = 6%Z.
Proof. apply (generate_length 6 [3; 1; 4; 1; 5; 9; 2; 6; 5; 3; 5]). lia. Defined.

(** C2: for every length [L >= 4] and whatever the randomness source
    yields, the returned string contains at least one lowercase letter, one
    uppercase letter, one digit and one punctuation character. *)
Theorem generate_has_every_class (L : Z) (s : Rng) :
  (4 ≤ L)%Z →
  ∃ pw s', generate_secure_password L s = Ok (Some pw) s' ∧
           1 ≤ count_class lowercase_chars pw ∧
           1 ≤ count_class uppercase_chars pw ∧
           1 ≤ count_class digits pw ∧
           1 ≤ count_class special_chars pw.
Proof.
  intros H. destruct (generate_run L s H) as (r & Hr & Hrun).
  destruct Hr as (c1 & c2 & c3 & c4 & extra & out & H1 & H2 & H3 & H4 & _ & _ & Hp & ->).
  exists (join out), (drop (draws L) s). split; [done|].
  rewrite !(count_class_perm _ _ _ Hp).
  split_and!.
  - apply (filter_length_pos _ _ c1); [simpl; rewrite !elem_of_cons; tauto|done].
  - apply (filter_length_pos _ _ c2); [simpl; rewrite !elem_of_cons; tauto|done].
  - apply (filter_length_pos _ _ c3); [simpl; rewrite !elem_of_cons; tauto|done].
  - apply (filter_length_pos _ _ c4); [simpl; rewrite !elem_of_cons; tauto|done].
Qed.

Lemma generate_has_every_class_witness :
  ∃ pw s', generate_secure_password 9 [7; 7; 7; 7; 0; 0; 0; 0; 0] = Ok (Some pw) s' ∧
           1 ≤ count_class lowercase_chars pw ∧
           1 ≤ count_class uppercase_chars pw ∧
           1 ≤ count_class digits pw ∧
           1 ≤ count_class special_chars pw.
Proof. apply (generate_has_every_class 9 [7; 7; 7; 7; 0; 0; 0; 0; 0]). lia. Defined.

(** C3: [generate_secure_password(length)] returns the failure value
    [None] exactly when [length < 4], without touching the randomness
    source, and a password string exactly when [length >= 4]. *)
Theorem generate_fails_iff_short (L : Z) (s : Rng) :
  (generate_secure_password L s = Ok None s ↔ (L < 4)%Z) ∧
  ((∃ s', generate_secure_password L s = Ok None s') ↔ (L < 4)%Z) ∧
  ((∃ pw s', generate_secure_password L s = Ok (Some pw) s') ↔ (4 ≤ L)%Z).
Proof.
  destruct (Z.lt_ge_cases L 4) as [Hlt|Hge].
  - assert (E : generate_secure_password L s = Ok None s).
    { destruct (reads_generate_invalid L Hlt s) as (r & -> & Hrun).
      by rewrite (Hrun s eq_refl), drop_0. }
    split_and!; split; try done; try lia.
    + by exists s.
    + intros (pw & s' & E'). congruence.
  - destruct (generate_run L s Hge) as (r & Hr & Hrun).
    destruct Hr as (c1 & c2 & c3 & c4 & extra & out & _ & _ & _ & _ & _ & _ & _ & ->).
    split_and!; split; try done; try lia.
    + intros E. congruence.
    + intros (s' & E). congruence.
    + by eauto.
Qed.

(** ** Runs on given scripts *)

Lemma bind_ok {A B} (m : M A) (f : A → M B) s a s' :
  m s = Ok a s' → bind m f s = f a s'.
Proof. intros E. unfold bind. by rewrite E. Qed.

Lemma choice_pick {A} (seq : list A) r s c :
  seq !! (r `mod` length seq) = Some c → choice seq (r :: s) = Ok c s.
Proof.
  intros E. destruct seq as [|a0 seq0]; [done|].
  unfold choice, bind, randbelow. by rewrite E.
Qed.

Lemma bind_choice_pick {A B} (seq : list A) (f : A → M B) r s c :
  seq !! (r `mod` length seq) = Some c → bind (choice seq) f (r :: s) = f c s.
Proof. intros E. apply bind_ok. by apply choice_pick. Qed.

Lemma swap_same {A} (x : list A) i s : i < length x → swap x i i s = Ok x s.
Proof.
  intros Hi. destruct (lookup_lt_is_Some_2 x i Hi) as [xi Ei].
  unfold swap. rewrite Ei. unfold ret.
  by rewrite (list_insert_id x i xi Ei), (list_insert_id x i xi Ei).
Qed.

(** Shuffle steps that draw [j = i] leave the list as it is. *)
Lemma shuffle_from_keep {A} k i0 (x : list A) t :
  i0 + k < length x →
  shuffle_from (i0 + k) x (rev (seq (S i0) k) ++ t) = shuffle_from i0 x t.
Proof.
  induction k as [|k IH]; intros Hk.
  - by rewrite Nat.add_0_r.
  - rewrite Nat.add_succ_r, seq_S, rev_unit. cbn [shuffle_from app].
    unfold bind at 1. unfold randbelow.
    replace ((S i0 + k) `mod` (S (i0 + k) + 1)) with (S (i0 + k))
      by (rewrite Nat.mod_small; lia).
    rewrite (bind_ok _ _ _ _ _ (swap_same x (S (i0 + k)) _ ltac:(lia))).
    apply IH. lia.
Qed.

(** The fill loop on a script of ones appends [n] times the character at
    index 1 of [all_chars]. *)
Lemma fill_on_ones n (pl : list ascii) t :
  for_range n (λ password_list,
                 c <- choice (chars all_chars) ;; ret (password_list ++ [c]))
            pl (repeat 1 n ++ t)
  = Ok (pl ++ repeat "b"%char n) t.
Proof.
  revert pl. induction n as [|n IH]; intros pl.
  - simpl. by rewrite app_nil_r.
  - cbn [for_range repeat app]. unfold bind at 1.
    rewrite (bind_choice_pick _ _ 1 _ "b"%char) by reflexivity.
    unfold ret at 1. rewrite IH, <- app_assoc. done.
Qed.

(** On the choices of [script_choices], the list handed to the shuffle is
    [a A 0 !] followed by [n] times [b]. *)
Lemma generate_on_choices (L : Z) t :
  (4 ≤ L)%Z →
  generate_secure_password L (script_choices (Z.to_nat (L - 4)) ++ t)
  = bind (shuffle (["a"; "A"; "0"; "!"]%char ++ repeat "b"%char (Z.to_nat (L - 4))))
         (λ out, ret (Some (join out))) t.
Proof.
  intros H. unfold generate_secure_password.
  destruct (Z.ltb_spec L 4); [lia|].
  unfold script_choices. cbn [app].
  rewrite (bind_choice_pick _ _ 0 _ "a"%char) by reflexivity.
  rewrite (bind_choice_pick _ _ 0 _ "A"%char) by reflexivity.
  rewrite (bind_choice_pick _ _ 0 _ "0"%char) by reflexivity.
  rewrite (bind_choice_pick _ _ 0 _ "!"%char) by reflexivity.
  cbn [length Z.of_nat Pos.of_succ_nat Pos.succ].
  by rewrite (bind_ok _ _ _ _ _ (fill_on_ones _ _ _)).
Qed.

Lemma generate_still (L : Z) :
  (4 ≤ L)%Z →
  generate_secure_password L (script_still (Z.to_nat (L - 4)))
  = Ok (Some (join (["a"; "A"; "0"; "!"]%char ++ repeat "b"%char (Z.to_nat (L - 4))))) [].
Proof.
  intros H. unfold script_still. rewrite generate_on_choices by done.
  set (n := Z.to_nat (L - 4)). unfold shuffle.
  replace (length (["a"; "A"; "0"; "!"]%char ++ repeat "b"%char n) - 1) with (0 + (n + 3))
    by (rewrite length_app, repeat_length; simpl; lia).
  rewrite <- (app_nil_r (rev (seq 1 (n + 3)))).
  unfold bind. rewrite shuffle_from_keep; [done|].
  rewrite length_app, repeat_length. simpl. lia.
Qed.

Lemma generate_moved (L : Z) :
  (4 ≤ L)%Z →
  generate_secure_password L (script_moved (Z.to_nat (L - 4)))
  = Ok (Some (join (["A"; "a"; "!"; "0"]%char ++ repeat "b"%char (Z.to_nat (L - 4))))) [].
Proof.
  intros H. unfold script_moved. rewrite generate_on_choices by done.
  set (n := Z.to_nat (L - 4)). unfold shuffle.
  replace (length (["a"; "A"; "0"; "!"]%char ++ repeat "b"%char n) - 1) with (3 + n)
    by (rewrite length_app, repeat_length; simpl; lia).
  unfold bind. rewrite shuffle_from_keep.
  - reflexivity.
  - rewrite length_app, repeat_length. simpl. lia.
Qed.

(** ** The source against the algorithm of the specification *)

Lemma union_all_chars : Spec.union = chars all_chars.
Proof. reflexivity. Qed.

Lemma bind_assoc {A B C} (m : M A) (f : A → M B) (g : B → M C) s :
  bind (bind m f) g s = bind m (λ a, bind (f a) g) s.
Proof. unfold bind. by destruct (m s). Qed.

Lemma bind_ret_l {A B} (a : A) (f : A → M B) s : bind (ret a) f s = f a s.
Proof. done. Qed.

Lemma bind_ext {A B} (m : M A) (f g : A → M B) s :
  (∀ a s', f a s' = g a s') → bind m f s = bind m g s.
Proof. intros E. unfold bind. by destruct (m s). Qed.

Lemma bind_ext_l {A B} (m m' : M A) (f : A → M B) s :
  (∀ s', m s' = m' s') → bind m f s = bind m' f s.
Proof. intros E. unfold bind. by rewrite E. Qed.

(** Appending one character per iteration gives what drawing the
    additional characters first and appending them at once gives. *)
Lemma fill_additional n (pl : list ascii) s :
  for_range n (λ password_list,
                 c <- choice (chars all_chars) ;; ret (password_list ++ [c])) pl s
  = bind (Spec.additional n) (λ extra, ret (pl ++ extra)) s.
Proof.
  revert pl s. induction n as [|n IH]; intros pl s.
  - cbn [for_range Spec.additional]. rewrite bind_ret_l. by rewrite app_nil_r.
  - cbn [for_range Spec.additional]. rewrite union_all_chars, !bind_assoc.
    apply bind_ext. intros c s1.
    rewrite bind_ret_l, IH, bind_assoc.
    apply bind_ext. intros cs s2.
    by rewrite bind_ret_l, <- app_assoc.
Qed.

Lemma generate_refines (L : Z) s :
  generate_secure_password L s = Spec.generate L s.
Proof.
  unfold generate_secure_password, Spec.generate.
  destruct (Z.ltb_spec L 4), (Z.leb_spec 4 L); try lia; [done|].
  unfold Spec.select_one_per_class.
  rewrite bind_assoc. apply bind_ext. intros c1 s1.
  rewrite bind_assoc. apply bind_ext. intros c2 s2.
  rewrite bind_assoc. apply bind_ext. intros c3 s3.
  rewrite bind_assoc. apply bind_ext. intros c4 s4.
  rewrite bind_ret_l. cbn [length Z.of_nat Pos.of_succ_nat Pos.succ].
  rewrite (bind_ext_l _ _ _ _ (fill_additional _ _)), bind_assoc.
  apply bind_ext. intros extra s5. by rewrite bind_ret_l.
Qed.

Lemma reads_select :
  reads 4 Spec.select_one_per_class
    (λ g, ∃ c1 c2 c3 c4, g = [c1; c2; c3; c4] ∧
          in_class ascii_lowercase c1 ∧ in_class ascii_uppercase c2 ∧
          in_class string_digits c3 ∧ in_class punctuation c4).
Proof.
  unfold Spec.select_one_per_class.
  apply (reads_draws (1 + (1 + (1 + (1 + 0))))); [done|].
  apply (reads_bind _ _ _ _ (in_class ascii_lowercase)); [by apply reads_choice|].
  intros c1 H1.
  apply (reads_bind _ _ _ _ (in_class ascii_uppercase)); [by apply reads_choice|].
  intros c2 H2.
  apply (reads_bind _ _ _ _ (in_class string_digits)); [by apply reads_choice|].
  intros c3 H3.
  apply (reads_bind _ _ _ _ (in_class punctuation)); [by apply reads_choice|].
  intros c4 H4. apply reads_ret. by exists c1, c2, c3, c4.
Qed.

Lemma reads_additional n :
  reads n (Spec.additional n)
    (λ extra, length extra = n ∧ Forall (λ c, c ∈ Spec.union) extra).
Proof.
  induction n as [|n IH].
  - by apply reads_ret.
  - cbn [Spec.additional].
    apply (reads_bind 1 n _ _ (λ c, c ∈ Spec.union)); [by apply reads_choice|].
    intros c Hc.
    apply (reads_draws (n + 0)); [lia|].
    eapply reads_bind; [apply IH|].
    intros cs [Hlen Hall]. apply reads_ret. split; [simpl; lia|by constructor].
Qed.

(** C4: [generate_secure_password] computes what the algorithm of the
    specification computes: one character chosen from each of the four
    classes, then exactly [length - 4] characters each chosen from the union
    of the classes, then a permutation of the resulting sequence of
    [4 + (length - 4)] characters, joined to a string. *)
Theorem generate_follows_algorithm (L : Z) (s : Rng) :
  (4 ≤ L)%Z →
  generate_secure_password L s = Spec.generate L s ∧
  ∃ c1 c2 c3 c4 extra out s1 s2 s3,
    Spec.select_one_per_class s = Ok [c1; c2; c3; c4] s1 ∧
    in_class ascii_lowercase c1 ∧ in_class ascii_uppercase c2 ∧
    in_class string_digits c3 ∧ in_class punctuation c4 ∧
    Spec.additional (Z.to_nat (L - 4)) s1 = Ok extra s2 ∧
    Z.of_nat (length extra) = (L - 4)%Z ∧
    Forall (λ c, c ∈ Spec.union) extra ∧
    shuffle ([c1; c2; c3; c4] ++ extra) s2 = Ok out s3 ∧
    out ≡ₚ [c1; c2; c3; c4] ++ extra ∧
    generate_secure_password L s = Ok (Some (join out)) s3.
Proof.
  intros H. split; [apply generate_refines|].
  destruct (reads_select s) as (g & (c1 & c2 & c3 & c4 & -> & H1 & H2 & H3 & H4) & Hg).
  specialize (Hg s eq_refl). set (s1 := drop 4 s) in *.
  destruct (reads_additional (Z.to_nat (L - 4)) s1) as (extra & [Hlen Hall] & He).
  specialize (He s1 eq_refl). set (s2 := drop (Z.to_nat (L - 4)) s1) in *.
  destruct (reads_shuffle ([c1; c2; c3; c4] ++ extra) s2) as (out & Hp & Ho).
  specialize (Ho s2 eq_refl).
  exists c1, c2, c3, c4, extra, out, s1, s2, (drop (length ([c1; c2; c3; c4] ++ extra) - 1) s2).
  split_and!; try done; [lia|].
  rewrite generate_refines. unfold Spec.generate.
  destruct (Z.leb_spec 4 L); [|lia].
  rewrite (bind_ok _ _ _ _ _ Hg), (bind_ok _ _ _ _ _ He), (bind_ok _ _ _ _ _ Ho).
  done.
Qed.

Lemma generate_follows_algorithm_witness :
  generate_secure_password 5 [25; 0; 9; 31; 93; 2; 0; 1; 0] =
    Spec.generate 5 [25; 0; 9; 31; 93; 2; 0; 1; 0] ∧
  ∃ c1 c2 c3 c4 extra out s1 s2 s3,
    Spec.select_one_per_class [25; 0; 9; 31; 93; 2; 0; 1; 0] = Ok [c1; c2; c3; c4] s1 ∧
    in_class ascii_lowercase c1 ∧ in_class ascii_uppercase c2 ∧
    in_class string_digits c3 ∧ in_class punctuation c4 ∧
    Spec.additional (Z.to_nat (5 - 4)) s1 = Ok extra s2 ∧
    Z.of_nat (length extra) = (5 - 4)%Z ∧
    Forall (λ c, c ∈ Spec.union) extra ∧
    shuffle ([c1; c2; c3; c4] ++ extra) s2 = Ok out s3 ∧
    out ≡ₚ [c1; c2; c3; c4] ++ extra ∧
    generate_secure_password 5 [25; 0; 9; 31; 93; 2; 0; 1; 0] = Ok (Some (join out)) s3.
Proof. apply (generate_follows_algorithm 5 [25; 0; 9; 31; 93; 2; 0; 1; 0]). lia. Defined.

(** C5: [generate_secure_password(4)] returns a string of four characters
    with exactly one lowercase letter, exactly one uppercase letter, exactly
    one digit and exactly one punctuation character, whatever the shuffle
    does to their order. *)
Theorem generate_four (s : Rng) :
  ∃ pw s', generate_secure_password 4 s = Ok (Some pw) s' ∧
           String.length pw = 4 ∧
           count_class lowercase_chars pw = 1 ∧
           count_class uppercase_chars pw = 1 ∧
           count_class digits pw = 1 ∧
           count_class special_chars pw = 1.
Proof.
  destruct (generate_run 4 s ltac:(lia)) as (r & Hr & Hrun).
  destruct Hr as (c1 & c2 & c3 & c4 & extra & out & H1 & H2 & H3 & H4 & Hlen & _ & Hp & ->).
  destruct extra; [|done]. rewrite app_nil_r in Hp.
  exists (join out), (drop (draws 4) s). split; [done|].
  rewrite length_join, !(count_class_perm _ _ _ Hp), Hp.
  destruct (lower_only c1 H1) as (? & ? & ?), (upper_only c2 H2) as (? & ? & ?),
    (digit_only c3 H3) as (? & ? & ?), (special_only c4 H4) as (? & ? & ?).
  split_and!; [done|..];
    repeat first [rewrite filter_cons_True by done | rewrite filter_cons_False by done];
    done.
Qed.

(** C6: every character of every password returned for a length
    [L >= 4] belongs to one of the four classes. *)
Theorem generate_only_class_chars (L : Z) (s : Rng) :
  (4 ≤ L)%Z →
  ∃ pw s', generate_secure_password L s = Ok (Some pw) s' ∧
           Forall (λ c, in_class ascii_lowercase c ∨ in_class ascii_uppercase c ∨
                        in_class string_digits c ∨ in_class punctuation c)
                  (chars pw).
Proof.
  intros H. destruct (generate_run L s H) as (r & Hr & Hrun).
  destruct Hr as (c1 & c2 & c3 & c4 & extra & out & H1 & H2 & H3 & H4 & _ & Hall & Hp & ->).
  exists (join out), (drop (draws L) s). split; [done|].
  rewrite chars_join, Hp.
  eapply Forall_impl; [by apply (built_from_all_chars L)|].
  intros c Hc. by apply in_all_chars.
Qed.

Lemma generate_only_class_chars_witness :
  ∃ pw s', generate_secure_password 12 [1; 2; 3; 4; 5; 60; 70; 80] = Ok (Some pw) s' ∧
           Forall (λ c, in_class ascii_lowercase c ∨ in_class ascii_uppercase c ∨
                        in_class string_digits c ∨ in_class punctuation c)
                  (chars pw).
Proof. apply (generate_only_class_chars 12 [1; 2; 3; 4; 5; 60; 70; 80]). lia. Defined.

(** C7: the returned value is a function of the length and of the values
    drawn: two runs with the same length on scripts that agree on the
    [draws L] values the run draws return the same value, and each run
    leaves the rest of its script as it found it.  The script is the only
    state the function has. *)
Theorem generate_pure (L : Z) (s1 s2 : Rng) :
  take (draws L) s1 = take (draws L) s2 →
  ∃ r, generate_secure_password L s1 = Ok r (drop (draws L) s1) ∧
       generate_secure_password L s2 = Ok r (drop (draws L) s2).
Proof.
  intros E. destruct (Z.lt_ge_cases L 4) as [Hlt|Hge].
  - destruct (reads_generate_invalid L Hlt s1) as (r & _ & Hrun).
    exists r. unfold draws. destruct (Z.ltb_spec L 4); [|lia].
    split; by apply Hrun.
  - destruct (reads_generate L Hge s1) as (r & _ & Hrun).
    exists r. split; by apply Hrun.
Qed.

Lemma generate_pure_witness :
  ∃ r, generate_secure_password 4 [5; 6; 7; 8; 0; 1; 0; 11; 12]
         = Ok r (drop (draws 4) [5; 6; 7; 8; 0; 1; 0; 11; 12]) ∧
       generate_secure_password 4 [5; 6; 7; 8; 0; 1; 0; 99]
         = Ok r (drop (draws 4) [5; 6; 7; 8; 0; 1; 0; 99]).
Proof.
  apply (generate_pure 4 [5; 6; 7; 8; 0; 1; 0; 11; 12] [5; 6; 7; 8; 0; 1; 0; 99]).
  reflexivity.
Defined.

(** C9: [generate_secure_password] returns normally for every integer
    length and every script, after exactly [draws L] draws: none when
    [L < 4], where the guard returns before any loop, and [2 L - 1]
    otherwise, which for [L = 4] leaves no draw for the fill loop. *)
Theorem generate_total (L : Z) (s : Rng) :
  ∃ r, generate_secure_password L s = Ok r (drop (draws L) s) ∧
       draws L = (if (L <? 4)%Z then 0 else Z.to_nat (2 * L - 1)).
Proof.
  destruct (Z.lt_ge_cases L 4) as [Hlt|Hge].
  - destruct (reads_generate_invalid L Hlt s) as (r & _ & Hrun).
    exists r. unfold draws. destruct (Z.ltb_spec L 4); [|lia].
    split; [by apply Hrun|lia].
  - destruct (reads_generate L Hge s) as (r & _ & Hrun).
    exists r. split; [by apply Hrun|].
    unfold draws. destruct (Z.ltb_spec L 4); lia.
Qed.

(** ** Positions after the shuffle *)

Lemma filter_repeat_other (c b : ascii) n :
  b ≠ c → filter (λ d, d = c) (repeat b n) = [].
Proof.
  intros Hne. induction n as [|n IH]; [done|].
  simpl. by rewrite filter_cons_False.
Qed.

Lemma occurrences_before_fill (c : ascii) (l : list ascii) n :
  "b"%char ≠ c →
  occurrences c (join (l ++ repeat "b"%char n)) = length (filter (λ d, d = c) l).
Proof.
  intros Hne. unfold occurrences.
  by rewrite chars_join, filter_app, filter_repeat_other, app_nil_r.
Qed.

Lemma length_script_choices n : length (script_choices n) = 4 + n.
Proof. unfold script_choices. by rewrite length_app, repeat_length. Qed.

(** C8: for every length [L >= 4] there are two outcomes of the
    randomness source that choose the same characters, so that each of the
    four guaranteed characters occurs exactly once in either password, and
    that put every one of the four at a different position. *)
Theorem shuffle_effective (L : Z) :
  (4 ≤ L)%Z →
  ∃ s1 s2 g pw1 pw2 s1' s2',
    take (Z.to_nat L) s1 = take (Z.to_nat L) s2 ∧
    Spec.select_one_per_class s1 = Ok g (drop 4 s1) ∧
    length g = 4 ∧
    generate_secure_password L s1 = Ok (Some pw1) s1' ∧
    generate_secure_password L s2 = Ok (Some pw2) s2' ∧
    Forall (λ c, occurrences c pw1 = 1 ∧ occurrences c pw2 = 1 ∧
                 position c (chars pw1) ≠ position c (chars pw2)) g.
Proof.
  intros H. set (n := Z.to_nat (L - 4)).
  exists (script_still n), (script_moved n), ["a"; "A"; "0"; "!"]%char.
  eexists _, _, _, _. split_and!.
  - replace (Z.to_nat L) with (length (script_choices n))
      by (rewrite length_script_choices; unfold n; lia).
    unfold script_still, script_moved. by rewrite !take_app_length.
  - reflexivity.
  - reflexivity.
  - by apply generate_still.
  - by apply generate_moved.
  - fold n. repeat constructor;
      rewrite ?occurrences_before_fill by done; rewrite ?chars_join; done.
Qed.

Lemma shuffle_effective_witness :
  ∃ s1 s2 g pw1 pw2 s1' s2',
    take (Z.to_nat 6) s1 = take (Z.to_nat 6) s2 ∧
    Spec.select_one_per_class s1 = Ok g (drop 4 s1) ∧
    length g = 4 ∧
    generate_secure_password 6 s1 = Ok (Some pw1) s1' ∧
    generate_secure_password 6 s2 = Ok (Some pw2) s2' ∧
    Forall (λ c, occurrences c pw1 = 1 ∧ occurrences c pw2 = 1 ∧
                 position c (chars pw1) ≠ position c (chars pw2)) g.
Proof. apply (shuffle_effective 6). lia. Defined.

(** ** Passwords on the way to the clipboard *)

Lemma lstrip_plain l : Forall (λ c, isspace c = false) l → lstrip l = l.
Proof. intros Hl. destruct Hl as [|c l Hc _]; [done|]. simpl. by rewrite Hc. Qed.

Lemma rstrip_plain l : Forall (λ c, isspace c = false) l → rstrip l = l.
Proof.
  intros Hl. unfold rstrip. rewrite lstrip_plain by by apply Forall_rev.
  apply rev_involutive.
Qed.

Lemma strip_plain text :
  Forall (λ c, isspace c = false) (chars text) → strip text = text.
Proof.
  intros Hl. unfold strip. rewrite (lstrip_plain _ Hl), (rstrip_plain _ Hl).
  apply string_of_list_ascii_of_string.
Qed.

Lemma encode_utf8_ascii text :
  Forall (λ c, (N_of_ascii c < 128)%N) (chars text) →
  encode_utf8 text = list_byte_of_string text.
Proof.
  unfold encode_utf8, list_byte_of_string, chars.
  induction 1 as [|c l Hc _ IH]; [done|].
  simpl. rewrite IH. unfold utf8_char.
  by destruct (N.ltb_spec (N_of_ascii c) 128); [|lia].
Qed.

Lemma fallback_delivers env text ok d :
  fallback env text = (ok, Some d) →
  ∃ argv, d = ViaProgram argv (fallback_input text).
Proof.
  unfold fallback. intros E.
  repeat match type of E with
         | context [if ?b then _ else _] => destruct b
         | context [match program ?e ?p with _ => _ end] => destruct (program e p)
         end; simplify_eq; eauto.
Qed.

(** C10: a generated password contains no whitespace character, so
    [strip] returns it unchanged, the bytes the fallback pipes to its
    program are the characters of the password, and whatever
    [copy_to_clipboard] hands to a clipboard mechanism is the password. *)
Theorem password_reaches_clipboard_unchanged (L : Z) (s : Rng) :
  (4 ≤ L)%Z →
  ∃ pw s', generate_secure_password L s = Ok (Some pw) s' ∧
           Forall (λ c, isspace c = false) (chars pw) ∧
           strip pw = pw ∧
           fallback_input pw = list_byte_of_string pw ∧
           ∀ env ok d, copy_to_clipboard env pw = (ok, Some d) →
                       d = ViaPyperclip pw ∨
                       ∃ argv, d = ViaProgram argv (list_byte_of_string pw).
Proof.
  intros H. destruct (generate_run L s H) as (r & Hr & Hrun).
  destruct Hr as (c1 & c2 & c3 & c4 & extra & out & H1 & H2 & H3 & H4 & _ & Hall & Hp & ->).
  exists (join out), (drop (draws L) s). split; [done|].
  assert (Hplain : Forall (λ c, isspace c = false ∧ (N_of_ascii c < 128)%N)
                          (chars (join out))).
  { rewrite chars_join, Hp.
    eapply Forall_impl; [by apply (built_from_all_chars L)|].
    apply all_chars_plain. }
  assert (Hsp : Forall (λ c, isspace c = false) (chars (join out)))
    by (eapply Forall_impl; [exact Hplain|by intros c [? _]]).
  assert (Hin : fallback_input (join out) = list_byte_of_string (join out)).
  { unfold fallback_input. rewrite strip_plain by done.
    apply encode_utf8_ascii. eapply Forall_impl; [exact Hplain|by intros c [_ ?]]. }
  split_and!; [done|by apply strip_plain|done|].
  intros env ok d. unfold copy_to_clipboard.
  destruct (pyperclip env) as [[|]|]; intros E.
  - left. by simplify_eq.
  - right. destruct (fallback_delivers _ _ _ _ E) as [argv ->]. rewrite Hin. eauto.
  - right. destruct (fallback_delivers _ _ _ _ E) as [argv ->]. rewrite Hin. eauto.
Qed.

Lemma password_reaches_clipboard_unchanged_witness :
  ∃ pw s', generate_secure_password 8 [3; 4; 5; 6; 7; 40; 60; 93] = Ok (Some pw) s' ∧
           Forall (λ c, isspace c = false) (chars pw) ∧
           strip pw = pw ∧
           fallback_input pw = list_byte_of_string pw ∧
           ∀ env ok d, copy_to_clipboard env pw = (ok, Some d) →
                       d = ViaPyperclip pw ∨
                       ∃ argv, d = ViaProgram argv (list_byte_of_string pw).
Proof.
  apply (password_reaches_clipboard_unchanged 8 [3; 4; 5; 6; 7; 40; 60; 93]). lia.
Defined.

(** ** Which passwords can be returned *)










(** ** When and what [copy_to_clipboard] copies *)

(** X2: [copy_to_clipboard] returns [True] exactly when [pyperclip] works,
    or [clip.exe] exits with status zero on [win32], or [pbcopy] can be
    launched on [darwin] (its exit status is not looked at), or on a
    platform whose name starts with [linux] either [xclip] exits with
    status zero or [xclip] is missing and [xsel] exits with status zero.
    An [xclip] that runs and fails ends the attempt: [xsel] is not tried. *)
Theorem copy_succeeds_iff (env : Env) (text : string) :
  (copy_to_clipboard env text).1 = true ↔
  pyperclip env = Some true ∨
  (sys_platform env = "win32" ∧ program env "clip.exe" = Exit0) ∨
  (sys_platform env = "darwin" ∧ program env "pbcopy" ≠ NotFound) ∨
  (String.prefix "linux" (sys_platform env) = true ∧
   (program env "xclip" = Exit0 ∨
    (program env "xclip" = NotFound ∧ program env "xsel" = Exit0))).
Proof.
  assert (Hf : (fallback env text).1 = true ↔
               (sys_platform env = "win32" ∧ program env "clip.exe" = Exit0) ∨
               (sys_platform env = "darwin" ∧ program env "pbcopy" ≠ NotFound) ∨
               (String.prefix "linux" (sys_platform env) = true ∧
                (program env "xclip" = Exit0 ∨
                 (program env "xclip" = NotFound ∧ program env "xsel" = Exit0)))).
  { unfold fallback.
    destruct (String.eqb_spec (sys_platform env) "win32") as [Ew|Ew].
    { rewrite Ew. destruct (program env "clip.exe"); simpl; intuition congruence. }
    destruct (String.eqb_spec (sys_platform env) "darwin") as [Ed|Ed].
    { rewrite Ed. destruct (program env "pbcopy"); simpl; intuition congruence. }
    destruct (String.prefix "linux" (sys_platform env)).
    - destruct (program env "xclip"); [| |destruct (program env "xsel")];
        simpl; intuition congruence.
    - simpl. intuition congruence. }
  unfold copy_to_clipboard.
  destruct (pyperclip env) as [[|]|]; [simpl; intuition congruence|..];
    rewrite Hf; intuition congruence.
Qed.

Lemma chars_append (a b : string) : chars (a +:+ b) = chars a ++ chars b.
Proof. unfold chars. induction a as [|c a IH]; simpl; [done|]. by rewrite IH. Qed.

Lemma lstrip_spaces ws : Forall (λ c, isspace c = true) ws → lstrip ws = [].
Proof. induction 1 as [|c ws Hc _ IH]; simpl; [done|]. by rewrite Hc. Qed.

Lemma lstrip_lead ws l :
  Forall (λ c, isspace c = true) ws → lstrip (ws ++ l) = lstrip l.
Proof. induction 1 as [|c ws Hc _ IH]; simpl; [done|]. by rewrite Hc. Qed.

Lemma lstrip_trail l ws :
  Forall (λ c, isspace c = true) ws →
  lstrip (l ++ ws) = match lstrip l with [] => [] | _ :: _ => lstrip l ++ ws end.
Proof.
  intros Hws. induction l as [|c l IH]; simpl.
  - by apply lstrip_spaces.
  - by destruct (isspace c).
Qed.

Lemma rstrip_trail l ws :
  Forall (λ c, isspace c = true) ws → rstrip (l ++ ws) = rstrip l.
Proof.
  intros Hws. unfold rstrip.
  by rewrite rev_app_distr, lstrip_lead by by apply Forall_rev.
Qed.

Lemma strip_padded lead text trail :
  Forall (λ c, isspace c = true) (chars lead) →
  Forall (λ c, isspace c = true) (chars trail) →
  strip (lead +:+ text +:+ trail) = strip text.
Proof.
  intros Hl Ht. unfold strip. f_equal.
  rewrite !chars_append, lstrip_lead, lstrip_trail by done.
  destruct (lstrip (chars text)); [done|]. by apply rstrip_trail.
Qed.

(** X3: whitespace around the text is lost on every fallback path, which
    copies what it would copy for the text alone, and is kept by
    [pyperclip], which is handed the text as it is. *)
Theorem fallback_drops_surrounding_whitespace (env : Env) (lead text trail : string) :
  Forall (λ c, isspace c = true) (chars lead) →
  Forall (λ c, isspace c = true) (chars trail) →
  fallback env (lead +:+ text +:+ trail) = fallback env text ∧
  (pyperclip env ≠ Some true →
   copy_to_clipboard env (lead +:+ text +:+ trail) = copy_to_clipboard env text) ∧
  (pyperclip env = Some true →
   copy_to_clipboard env (lead +:+ text +:+ trail)
   = (true, Some (ViaPyperclip (lead +:+ text +:+ trail)))).
Proof.
  intros Hl Ht.
  assert (E : fallback env (lead +:+ text +:+ trail) = fallback env text).
  { unfold fallback, fallback_input. by rewrite strip_padded. }
  unfold copy_to_clipboard. split_and!; [done| |by intros ->].
  by destruct (pyperclip env) as [[|]|].
Qed.

Lemma fallback_drops_surrounding_whitespace_witness :
  fallback {| pyperclip := None; sys_platform := "linux"; program := λ _, Exit0 |}
           ("  " +:+ "pass word" +:+ nl)
  = fallback {| pyperclip := None; sys_platform := "linux"; program := λ _, Exit0 |}
             "pass word" ∧
  (pyperclip {| pyperclip := None; sys_platform := "linux"; program := λ _, Exit0 |}
   ≠ Some true →
   copy_to_clipboard
     {| pyperclip := None; sys_platform := "linux"; program := λ _, Exit0 |}
     ("  " +:+ "pass word" +:+ nl)
   = copy_to_clipboard
       {| pyperclip := None; sys_platform := "linux"; program := λ _, Exit0 |}
       "pass word") ∧
  (pyperclip {| pyperclip := None; sys_platform := "linux"; program := λ _, Exit0 |}
   = Some true →
   copy_to_clipboard
     {| pyperclip := None; sys_platform := "linux"; program := λ _, Exit0 |}
     ("  " +:+ "pass word" +:+ nl)
   = (true, Some (ViaPyperclip ("  " +:+ "pass word" +:+ nl)))).
Proof.
  apply (fallback_drops_surrounding_whitespace
           {| pyperclip := None; sys_platform := "linux"; program := λ _, Exit0 |}
           "  " "pass word" nl).
  - apply (bool_decide_unpack _). vm_compute. reflexivity.
  - apply (bool_decide_unpack _). vm_compute. reflexivity.
Defined.

(** ** The lines the program prints *)

Section ProgramFacts.

Variable int : string → option Z.
Variable lower : string → string.
Variable exc_text : failure → string.

Lemma fallback_io_agrees env text :
  (fallback_io exc_text env text).2 = fallback env text.
Proof.
  unfold fallback_io, fallback, fallback_error.
  destruct (String.eqb (sys_platform env) "win32");
    [by destruct (program env "clip.exe")|].
  destruct (String.eqb (sys_platform env) "darwin");
    [by destruct (program env "pbcopy")|].
  destruct (String.prefix "linux" (sys_platform env)); [|done].
  destruct (program env "xclip"); [done|done|].
  by destruct (program env "xsel").
Qed.

(** The flag and the delivery of [copy_to_clipboard_io] are those of
    [copy_to_clipboard]. *)
Lemma copy_io_agrees env text :
  (copy_to_clipboard_io exc_text env text).2 = copy_to_clipboard env text.
Proof.
  unfold copy_to_clipboard_io, copy_to_clipboard.
  destruct (pyperclip env) as [[|]|]; [done| |apply fallback_io_agrees].
  rewrite <- fallback_io_agrees. by destruct (fallback_io exc_text env text).
Qed.



(** A generated password has the requested length and only characters of
    the four classes. *)
Lemma generate_password (L : Z) (s : Rng) :
  (4 ≤ L)%Z →
  ∃ pw, generate_secure_password L s = Ok (Some pw) (drop (draws L) s) ∧
        Z.of_nat (String.length pw) = L ∧
        Forall (in_class all_chars) (chars pw).
Proof.
  intros H. destruct (generate_run L s H) as (r & Hr & Hrun).
  destruct Hr as (c1 & c2 & c3 & c4 & extra & out & H1 & H2 & H3 & H4 & Hlen & Hall & Hp & ->).
  exists (join out). split_and!; [done| |].
  - rewrite length_join, Hp, length_app, Hlen. simpl. lia.
  - rewrite chars_join, Hp. by apply (built_from_all_chars L).
Qed.

Lemma password_not_failed_message pw :
  Forall (in_class all_chars) (chars pw) → pw ≠ failed_message.
Proof.
  intros Hall ->. apply Forall_impl with (Q := λ c, isspace c = false) in Hall.
  - revert Hall. apply (bool_decide_eq_false_1 _). vm_compute. reflexivity.
  - intros c Hc. by apply all_chars_plain.
Qed.

Ltac quiet :=
  repeat first [apply List.Forall_nil
               | apply List.Forall_cons; [unfold failed_message; simpl; discriminate|]
               | assumption].

Lemma not_in_quiet (l : list output) :
  Forall (λ o, o ≠ Print failed_message) l → Print failed_message ∉ l.
Proof. intros Hl Hin. by apply (proj1 (Forall_forall _ _) Hl _ Hin). Qed.

Lemma ask_length_quiet keys :
  Forall (λ o, o ≠ Print failed_message) (ask_length int keys).1.
Proof.
  induction keys as [|k ks IH]; [simpl; quiet|].
  destruct k as [s|]; simpl; [|quiet].
  destruct (int s) as [n|]; [destruct (n <? 4)%Z|];
    destruct (ask_length int ks) as [o r]; simpl in *; quiet.
Qed.

Lemma copy_io_quiet env text :
  Forall (λ o, o ≠ Print failed_message) (copy_to_clipboard_io exc_text env text).1.
Proof.
  assert (Hf : Forall (λ o, o ≠ Print failed_message) (fallback_io exc_text env text).1).
  { unfold fallback_io, fallback_error.
    destruct (String.eqb (sys_platform env) "win32");
      [destruct (program env "clip.exe"); simpl; quiet|].
    destruct (String.eqb (sys_platform env) "darwin");
      [destruct (program env "pbcopy"); simpl; quiet|].
    destruct (String.prefix "linux" (sys_platform env)); [|simpl; quiet].
    destruct (program env "xclip"); [simpl; quiet|simpl; quiet|].
    destruct (program env "xsel"); simpl; quiet. }
  unfold copy_to_clipboard_io.
  destruct (pyperclip env) as [[|]|]; [simpl; quiet| |done].
  destruct (fallback_io exc_text env text) as [o r]. simpl in *. quiet.
Qed.

Lemma ask_copy_quiet env pw keys :
  pw ≠ failed_message →
  Forall (λ o, o ≠ Print failed_message) (ask_copy lower exc_text env pw keys).1.
Proof.
  intros Hpw. induction keys as [|k ks IH]; [simpl; quiet|].
  destruct k as [a|]; simpl; [|quiet].
  destruct (String.eqb (lower a) "yes").
  - pose proof (copy_io_quiet env pw) as Hc.
    destruct (copy_to_clipboard_io exc_text env pw) as [o [ok d]]. simpl in *.
    apply List.Forall_cons; [discriminate|]. apply Forall_app. split; [done|].
    destruct ok; [quiet|]. apply List.Forall_cons; [discriminate|].
    apply List.Forall_cons; [congruence|quiet].
  - destruct (String.eqb (lower a) "no"); [simpl; quiet|].
    destruct (ask_copy lower exc_text env pw ks) as [o r]. simpl in *. quiet.
Qed.

(** What [input] raises at the second prompt is the only way the loop
    ends without an answer, and then nothing was copied. *)
Lemma ask_copy_error env pw keys o e d :
  ask_copy lower exc_text env pw keys = (o, (Some e, d)) →
  (e = EOFError ∨ e = KeyboardInterrupt) ∧ d = None.
Proof.
  revert o. induction keys as [|k ks IH]; intros o; simpl.
  - intros [= <- <- <-]. auto.
  - destruct k as [a|]; [|intros [= <- <- <-]; auto].
    destruct (String.eqb (lower a) "yes").
    { by destruct (copy_to_clipboard_io exc_text env pw) as [? [? ?]]. }
    destruct (String.eqb (lower a) "no"); [done|].
    destruct (ask_copy lower exc_text env pw ks) as [o' r].
    intros [= <- ->]. by eapply IH.
Qed.

(** The first prompt only lets a length through that is at least 4. *)
Lemma ask_length_got keys o n rest :
  ask_length int keys = (o, Got n rest) → (4 ≤ n)%Z.
Proof.
  revert o. induction keys as [|k ks IH]; intros o; simpl; [done|].
  destruct k as [s|]; [|done].
  destruct (int s) as [m|].
  - destruct (Z.ltb_spec m 4).
    + destruct (ask_length int ks) as [o' r]. intros [= <- ->]. by eapply IH.
    + intros [= <- <- <-]. done.
  - destruct (ask_length int ks) as [o' r]. intros [= <- ->]. by eapply IH.
Qed.

(** Once a length is accepted the program generates a password of that
    length and goes on to the second prompt with it. *)
Lemma main_got env keys rng o1 n keys' :
  ask_length int keys = (o1, Got n keys') →
  ∃ pw, generate_secure_password n rng = Ok (Some pw) (drop (draws n) rng) ∧
        Z.of_nat (String.length pw) = n ∧
        Forall (in_class all_chars) (chars pw) ∧
        main int lower exc_text env keys rng =
        match ask_copy lower exc_text env pw keys' with
        | (o3, (Some e, d)) =>
            {| shown := banner ++ o1 ++
                        (Print (nl +:+ "Your generated password: " +:+ pw)
                         :: pyperclip_note env) ++ o3;
               ended := Died e; clipboard := d;
               rng_left := drop (draws n) rng |}
        | (o3, (None, d)) =>
            {| shown := banner ++ o1 ++
                        (Print (nl +:+ "Your generated password: " +:+ pw)
                         :: pyperclip_note env) ++ o3 ++ closing;
               ended := Finished; clipboard := d;
               rng_left := drop (draws n) rng |}
        end.
Proof.
  intros E. pose proof (ask_length_got _ _ _ _ E) as Hn.
  destruct (generate_password n rng Hn) as (pw & Hrun & Hlen & Hall).
  exists pw. split_and!; try done.
  unfold main. rewrite E, Hrun.
  destruct pw as [|a pw]; [simpl in Hlen; lia|]. done.
Qed.

(** X5: the program never prints that the generation failed and is never
    ended by an exception of the generator, whatever is typed, whatever
    the platform and whatever the randomness source yields. *)
Theorem main_never_reports_failure (env : Env) (keys : list keyboard) (rng : Rng) :
  (Print failed_message ∉ shown (main int lower exc_text env keys rng)) ∧
  (∀ e, ended (main int lower exc_text env keys rng) ≠ Died (Library e)).
Proof.
  pose proof (ask_length_quiet keys) as H1.
  assert (Hb : Forall (λ o, o ≠ Print failed_message) banner)
    by (unfold banner; simpl; quiet).
  assert (Hc : Forall (λ o, o ≠ Print failed_message) closing)
    by (unfold closing; simpl; quiet).
  destruct (ask_length int keys) as [o1 [n keys'| |]] eqn:E; cbn [fst] in H1.
  - destruct (main_got env keys rng o1 n keys' E) as (pw & _ & _ & Hall & ->).
    pose proof (ask_copy_quiet env pw keys' (password_not_failed_message _ Hall)) as H3.
    assert (H2 : Forall (λ o, o ≠ Print failed_message)
                        (Print (nl +:+ "Your generated password: " +:+ pw)
                         :: pyperclip_note env)).
    { unfold pyperclip_note. destruct (pyperclip env); simpl; quiet. }
    destruct (ask_copy lower exc_text env pw keys') as [o3 [[e|] d]] eqn:E3;
      cbn [fst shown ended] in *.
    + split.
      * apply not_in_quiet. by repeat (apply Forall_app; split).
      * by destruct (ask_copy_error _ _ _ _ _ _ E3) as [[-> | ->] _].
    + split; [|done]. apply not_in_quiet. by repeat (apply Forall_app; split).
  - unfold main. rewrite E. cbn [shown ended]. split; [|done].
    apply not_in_quiet. by repeat (apply Forall_app; split).
  - unfold main. rewrite E. cbn [shown ended]. split; [|done].
    apply not_in_quiet. by repeat (apply Forall_app; split).
Qed.

Lemma ask_length_skips bad keys :
  Forall (λ b, accepted int b = None) bad →
  ask_length int (map Line bad ++ keys)
  = (length_retries int bad ++ (ask_length int keys).1, (ask_length int keys).2).
Proof.
  induction 1 as [|b bad Hb _ IH]; [simpl; by destruct (ask_length int keys)|].
  cbn [map app ask_length]. rewrite IH. unfold accepted in Hb.
  unfold length_retries. cbn [flat_map]. unfold complaint.
  destruct (int b) as [n|]; [|done]. by destruct (n <? 4)%Z.
Qed.

Lemma ask_length_accepts s n rest :
  accepted int s = Some n →
  ask_length int (Line s :: rest) = ([Prompt length_prompt], Got n rest).
Proof.
  unfold accepted. cbn [ask_length]. destruct (int s) as [m|]; [|done].
  destruct (m <? 4)%Z; [done|]. by intros [= ->].
Qed.

Lemma ask_copy_skips env pw wrong keys :
  Forall (λ a, lower a ≠ "yes" ∧ lower a ≠ "no") wrong →
  ask_copy lower exc_text env pw (map Line wrong ++ keys)
  = (copy_retries wrong ++ (ask_copy lower exc_text env pw keys).1,
     (ask_copy lower exc_text env pw keys).2).
Proof.
  induction 1 as [|a wrong [Hy Hn] _ IH];
    [simpl; by destruct (ask_copy lower exc_text env pw keys)|].
  cbn [map app ask_copy]. rewrite IH.
  destruct (String.eqb_spec (lower a) "yes"); [done|].
  by destruct (String.eqb_spec (lower a) "no").
Qed.

(** The run up to the second prompt, for keys that start with lines the
    first prompt turns down and then one it accepts. *)
Lemma main_accepted env bad s n keys' rng :
  Forall (λ b, accepted int b = None) bad →
  accepted int s = Some n →
  ∃ pw, generate_secure_password n rng = Ok (Some pw) (drop (draws n) rng) ∧
        Z.of_nat (String.length pw) = n ∧
        main int lower exc_text env (map Line bad ++ Line s :: keys') rng =
        match ask_copy lower exc_text env pw keys' with
        | (o3, (Some e, d)) =>
            {| shown := banner ++ (length_retries int bad ++ [Prompt length_prompt]) ++
                        password_lines env pw ++ o3;
               ended := Died e; clipboard := d;
               rng_left := drop (draws n) rng |}
        | (o3, (None, d)) =>
            {| shown := banner ++ (length_retries int bad ++ [Prompt length_prompt]) ++
                        password_lines env pw ++ o3 ++ closing;
               ended := Finished; clipboard := d;
               rng_left := drop (draws n) rng |}
        end.
Proof.
  intros Hbad Hs.
  assert (E : ask_length int (map Line bad ++ Line s :: keys')
              = (length_retries int bad ++ [Prompt length_prompt], Got n keys')).
  { by rewrite (ask_length_skips _ _ Hbad), (ask_length_accepts _ _ _ Hs). }
  destruct (main_got env _ rng _ _ _ E) as (pw & Hrun & Hlen & _ & ->).
  by exists pw.
Qed.

(** X6: a session in which the copy is declined.  After any number of
    lines the first prompt turns down and one it accepts as [n], the
    program shows a password of [n] characters that the generator returns on
    the given randomness; after any number of answers that are neither
    [yes] nor [no] and then [no], it prints that nothing was copied and
    its closing lines, hands nothing to the clipboard and ends normally. *)
Theorem session_declined (env : Env) (bad wrong : list string) (s ans : string)
    (n : Z) (rest : list keyboard) (rng : Rng) :
  Forall (λ b, accepted int b = None) bad →
  accepted int s = Some n →
  Forall (λ a, lower a ≠ "yes" ∧ lower a ≠ "no") wrong →
  lower ans = "no" →
  ∃ pw, generate_secure_password n rng = Ok (Some pw) (drop (draws n) rng) ∧
        Z.of_nat (String.length pw) = n ∧
        main int lower exc_text env
             (map Line bad ++ Line s :: map Line wrong ++ Line ans :: rest) rng
        = {| shown := banner ++ (length_retries int bad ++ [Prompt length_prompt]) ++
                      password_lines env pw ++
                      (copy_retries wrong ++
                       [Prompt copy_prompt; Print "Password not copied."]) ++
                      closing;
             ended := Finished; clipboard := None;
             rng_left := drop (draws n) rng |}.
Proof.
  intros Hbad Hs Hwrong Hans.
  destruct (main_accepted env bad s n (map Line wrong ++ Line ans :: rest) rng Hbad Hs)
    as (pw & Hrun & Hlen & ->).
  exists pw. split_and!; [done..|].
  rewrite (ask_copy_skips _ _ _ _ Hwrong). cbn [ask_copy]. by rewrite Hans.
Qed.

(** X7: a session in which the copy is asked for.  The answer [yes], in
    any case that [lower] maps to it, makes one call of
    [copy_to_clipboard] on the password shown; the clipboard gets what that
    call delivers, and when the call returns [False] the password is
    printed once more under a line that says so. *)
Theorem session_copied (env : Env) (bad wrong : list string) (s ans : string)
    (n : Z) (rest : list keyboard) (rng : Rng) :
  Forall (λ b, accepted int b = None) bad →
  accepted int s = Some n →
  Forall (λ a, lower a ≠ "yes" ∧ lower a ≠ "no") wrong →
  lower ans = "yes" →
  ∃ pw, generate_secure_password n rng = Ok (Some pw) (drop (draws n) rng) ∧
        Z.of_nat (String.length pw) = n ∧
        main int lower exc_text env
             (map Line bad ++ Line s :: map Line wrong ++ Line ans :: rest) rng
        = {| shown := banner ++ (length_retries int bad ++ [Prompt length_prompt]) ++
                      password_lines env pw ++
                      (copy_retries wrong ++
                       Prompt copy_prompt
                       :: (copy_to_clipboard_io exc_text env pw).1 ++
                          (if (copy_to_clipboard env pw).1 then []
                           else [Print "Failed to copy password automatically. Please copy it manually:";
                                 Print pw])) ++
                      closing;
             ended := Finished; clipboard := (copy_to_clipboard env pw).2;
             rng_left := drop (draws n) rng |}.
Proof.
  intros Hbad Hs Hwrong Hans.
  destruct (main_accepted env bad s n (map Line wrong ++ Line ans :: rest) rng Hbad Hs)
    as (pw & Hrun & Hlen & ->).
  exists pw. split_and!; [done..|].
  rewrite (ask_copy_skips _ _ _ _ Hwrong). cbn [ask_copy]. rewrite Hans.
  rewrite <- (copy_io_agrees env pw).
  by destruct (copy_to_clipboard_io exc_text env pw) as [o [ok d]].
Qed.

(** X8: an interrupt at the first prompt is caught: the program says
    goodbye and exits through [sys.exit()], and it has not called the
    generator, so the randomness source is as it was. *)
Theorem interrupt_at_length_prompt (env : Env) (bad : list string)
    (rest : list keyboard) (rng : Rng) :
  Forall (λ b, accepted int b = None) bad →
  main int lower exc_text env (map Line bad ++ CtrlC :: rest) rng
  = {| shown := banner ++ length_retries int bad ++
                [Prompt length_prompt;
                 Print (nl +:+ "Exiting password generator. Goodbye!")];
       ended := SysExit; clipboard := None; rng_left := rng |}.
Proof.
  intros Hbad. unfold main. by rewrite (ask_length_skips _ _ Hbad).
Qed.

(** X9: at the second prompt nothing is caught.  An interrupt there, or
    the end of the input, ends the program with [KeyboardInterrupt] or
    [EOFError] after the password was shown: nothing is copied and the
    closing lines are not printed. *)
Theorem second_prompt_uncaught (env : Env) (bad wrong : list string) (s : string)
    (n : Z) (tail : list keyboard) (e : error) (rng : Rng) :
  Forall (λ b, accepted int b = None) bad →
  accepted int s = Some n →
  Forall (λ a, lower a ≠ "yes" ∧ lower a ≠ "no") wrong →
  (tail = [] ∧ e = EOFError) ∨ (∃ rest, tail = CtrlC :: rest ∧ e = KeyboardInterrupt) →
  ∃ pw, generate_secure_password n rng = Ok (Some pw) (drop (draws n) rng) ∧
        main int lower exc_text env
             (map Line bad ++ Line s :: map Line wrong ++ tail) rng
        = {| shown := banner ++ (length_retries int bad ++ [Prompt length_prompt]) ++
                      password_lines env pw ++
                      (copy_retries wrong ++ [Prompt copy_prompt]);
             ended := Died e; clipboard := None;
             rng_left := drop (draws n) rng |}.
Proof.
  intros Hbad Hs Hwrong Htail.
  destruct (main_accepted env bad s n (map Line wrong ++ tail) rng Hbad Hs)
    as (pw & Hrun & Hlen & ->).
  exists pw. split; [done|].
  rewrite (ask_copy_skips _ _ _ _ Hwrong).
  by destruct Htail as [[-> ->]|(rest & -> & ->)].
Qed.

(** X10: when the input ends at the first prompt, [EOFError] ends the
    program: unlike the interrupt it is not caught, no goodbye is printed
    and the generator is not called. *)
Theorem input_ends_at_length_prompt (env : Env) (bad : list string) (rng : Rng) :
  Forall (λ b, accepted int b = None) bad →
  main int lower exc_text env (map Line bad) rng
  = {| shown := banner ++ length_retries int bad ++ [Prompt length_prompt];
       ended := Died EOFError; clipboard := None; rng_left := rng |}.
Proof.
  intros Hbad. unfold main.
  rewrite <- (app_nil_r (map Line bad)). by rewrite (ask_length_skips _ _ Hbad).
Qed.

End ProgramFacts.

Lemma session_declined_witness :
  ∃ pw, generate_secure_password 12 [3; 1; 4; 1; 5; 9; 2; 6; 5; 3; 5; 8; 9; 7; 9]
        = Ok (Some pw) (drop (draws 12) [3; 1; 4; 1; 5; 9; 2; 6; 5; 3; 5; 8; 9; 7; 9]) ∧
        Z.of_nat (String.length pw) = 12%Z ∧
        main int_sample lower_sample exc_text_sample env_sample
             (map Line ["abc"; "3"] ++ Line "12" :: map Line ["maybe"] ++ Line "no" :: [])
             [3; 1; 4; 1; 5; 9; 2; 6; 5; 3; 5; 8; 9; 7; 9]
        = {| shown := banner ++
                      (length_retries int_sample ["abc"; "3"] ++ [Prompt length_prompt]) ++
                      password_lines env_sample pw ++
                      (copy_retries ["maybe"] ++
                       [Prompt copy_prompt; Print "Password not copied."]) ++
                      closing;
             ended := Finished; clipboard := None;
             rng_left := drop (draws 12) [3; 1; 4; 1; 5; 9; 2; 6; 5; 3; 5; 8; 9; 7; 9] |}.
Proof.
  apply (session_declined int_sample lower_sample exc_text_sample env_sample
           ["abc"; "3"] ["maybe"] "12" "no" 12 []
           [3; 1; 4; 1; 5; 9; 2; 6; 5; 3; 5; 8; 9; 7; 9]).
  - repeat constructor.
  - reflexivity.
  - repeat constructor; discriminate.
  - reflexivity.
Defined.

Lemma session_copied_witness :
  ∃ pw, generate_secure_password 12 [3; 1; 4; 1; 5; 9; 2; 6; 5; 3; 5; 8; 9; 7; 9]
        = Ok (Some pw) (drop (draws 12) [3; 1; 4; 1; 5; 9; 2; 6; 5; 3; 5; 8; 9; 7; 9]) ∧
        Z.of_nat (String.length pw) = 12%Z ∧
        main int_sample lower_sample exc_text_sample env_sample
             (map Line ["abc"; "3"] ++ Line "12" :: map Line ["maybe"] ++ Line "yes" :: [])
             [3; 1; 4; 1; 5; 9; 2; 6; 5; 3; 5; 8; 9; 7; 9]
        = {| shown := banner ++
                      (length_retries int_sample ["abc"; "3"] ++ [Prompt length_prompt]) ++
                      password_lines env_sample pw ++
                      (copy_retries ["maybe"] ++
                       Prompt copy_prompt
                       :: (copy_to_clipboard_io exc_text_sample env_sample pw).1 ++
                          (if (copy_to_clipboard env_sample pw).1 then []
                           else [Print "Failed to copy password automatically. Please copy it manually:";
                                 Print pw])) ++
                      closing;
             ended := Finished; clipboard := (copy_to_clipboard env_sample pw).2;
             rng_left := drop (draws 12) [3; 1; 4; 1; 5; 9; 2; 6; 5; 3; 5; 8; 9; 7; 9] |}.
Proof.
  apply (session_copied int_sample lower_sample exc_text_sample env_sample
           ["abc"; "3"] ["maybe"] "12" "yes" 12 []
           [3; 1; 4; 1; 5; 9; 2; 6; 5; 3; 5; 8; 9; 7; 9]).
  - repeat constructor.
  - reflexivity.
  - repeat constructor; discriminate.
  - reflexivity.
Defined.

Lemma interrupt_at_length_prompt_witness :
  main int_sample lower_sample exc_text_sample env_sample
       (map Line ["abc"; "3"] ++ CtrlC :: [Line "12"]) [3; 1; 4]
  = {| shown := banner ++ length_retries int_sample ["abc"; "3"] ++
                [Prompt length_prompt;
                 Print (nl +:+ "Exiting password generator. Goodbye!")];
       ended := SysExit; clipboard := None; rng_left := [3; 1; 4] |}.
Proof.
  apply (interrupt_at_length_prompt int_sample lower_sample exc_text_sample env_sample
           ["abc"; "3"] [Line "12"] [3; 1; 4]).
  repeat constructor.
Defined.

Lemma second_prompt_uncaught_witness :
  ∃ pw, generate_secure_password 12 [3; 1; 4; 1; 5; 9; 2; 6; 5; 3; 5; 8; 9; 7; 9]
        = Ok (Some pw) (drop (draws 12) [3; 1; 4; 1; 5; 9; 2; 6; 5; 3; 5; 8; 9; 7; 9]) ∧
        main int_sample lower_sample exc_text_sample env_sample
             (map Line ["3"] ++ Line "12" :: map Line ["maybe"] ++ CtrlC :: [Line "yes"])
             [3; 1; 4; 1; 5; 9; 2; 6; 5; 3; 5; 8; 9; 7; 9]
        = {| shown := banner ++
                      (length_retries int_sample ["3"] ++ [Prompt length_prompt]) ++
                      password_lines env_sample pw ++
                      (copy_retries ["maybe"] ++ [Prompt copy_prompt]);
             ended := Died KeyboardInterrupt; clipboard := None;
             rng_left := drop (draws 12) [3; 1; 4; 1; 5; 9; 2; 6; 5; 3; 5; 8; 9; 7; 9] |}.
Proof.
  apply (second_prompt_uncaught int_sample lower_sample exc_text_sample env_sample
           ["3"] ["maybe"] "12" 12 (CtrlC :: [Line "yes"]) KeyboardInterrupt
           [3; 1; 4; 1; 5; 9; 2; 6; 5; 3; 5; 8; 9; 7; 9]).
  - repeat constructor.
  - reflexivity.
  - repeat constructor; discriminate.
  - right. exists [Line "yes"]. split; reflexivity.
Defined.

Lemma input_ends_at_length_prompt_witness :
  main int_sample lower_sample exc_text_sample env_sample
       (map Line ["abc"; "3"]) [3; 1; 4]
  = {| shown := banner ++ length_retries int_sample ["abc"; "3"] ++
                [Prompt length_prompt];
       ended := Died EOFError; clipboard := None; rng_left := [3; 1; 4] |}.
Proof.
  apply (input_ends_at_length_prompt int_sample lower_sample exc_text_sample env_sample
           ["abc"; "3"] [3; 1; 4]).
  repeat constructor.
Defined.

(** ** From the screen to the clipboard *)

Lemma password_delivery env pw ok d :
  Forall (in_class all_chars) (chars pw) →
  copy_to_clipboard env pw = (ok, Some d) →
  d = ViaPyperclip pw ∨ ∃ argv, d = ViaProgram argv (list_byte_of_string pw).
Proof.
  intros Hall. unfold copy_to_clipboard.
  assert (Hin : fallback_input pw = list_byte_of_string pw).
  { unfold fallback_input. rewrite strip_plain.
    - apply encode_utf8_ascii. eapply Forall_impl; [exact Hall|].
      intros c Hc. by apply all_chars_plain.
    - eapply Forall_impl; [exact Hall|]. intros c Hc. by apply all_chars_plain. }
  destruct (pyperclip env) as [[|]|]; intros E.
  - left. by simplify_eq.
  - right. destruct (fallback_delivers _ _ _ _ E) as [argv ->]. rewrite Hin. eauto.
  - right. destruct (fallback_delivers _ _ _ _ E) as [argv ->]. rewrite Hin. eauto.
Qed.

Section Delivery.

Variable int : string → option Z.
Variable lower : string → string.
Variable exc_text : failure → string.

(** Whatever the second prompt hands to the clipboard is what one call of
    [copy_to_clipboard] on the password delivers, and the loop has ended
    with an answer then. *)
Lemma ask_copy_delivers env pw keys o err d :
  ask_copy lower exc_text env pw keys = (o, (err, Some d)) →
  err = None ∧ (copy_to_clipboard env pw).2 = Some d.
Proof.
  revert o. induction keys as [|k ks IH]; intros o; simpl; [done|].
  destruct k as [a|]; [|done].
  destruct (String.eqb (lower a) "yes").
  - rewrite <- (copy_io_agrees exc_text env pw).
    destruct (copy_to_clipboard_io exc_text env pw) as [o' [ok d']].
    by intros [= <- <- ->].
  - destruct (String.eqb (lower a) "no"); [done|].
    destruct (ask_copy lower exc_text env pw ks) as [o' r].
    intros [= <- ->]. by eapply IH.
Qed.

(** X11: whatever is typed and whatever the platform, if a run hands
    anything to the clipboard it is the very password the run has shown:
    the text itself through [pyperclip], or its characters as bytes through
    a program; and such a run ends normally. *)
Theorem clipboard_holds_shown_password (env : Env) (keys : list keyboard)
    (rng : Rng) (d : delivery) :
  clipboard (main int lower exc_text env keys rng) = Some d →
  ∃ pw, Print (nl +:+ "Your generated password: " +:+ pw)
          ∈ shown (main int lower exc_text env keys rng) ∧
        (d = ViaPyperclip pw ∨ ∃ argv, d = ViaProgram argv (list_byte_of_string pw)) ∧
        ended (main int lower exc_text env keys rng) = Finished.
Proof.
  destruct (ask_length int keys) as [o1 [n keys'| |]] eqn:E.
  - destruct (main_got int lower exc_text env keys rng o1 n keys' E)
      as (pw & _ & _ & Hall & ->).
    destruct (ask_copy lower exc_text env pw keys') as [o3 [err d']] eqn:E3.
    intros Hd. assert (d' = Some d) as -> by (by destruct err).
    destruct (ask_copy_delivers _ _ _ _ _ _ E3) as [-> Hc].
    exists pw. cbn [shown ended]. split_and!; [|  |done].
    + rewrite !elem_of_app. right. right. left. by left.
    + destruct (copy_to_clipboard env pw) as [ok d0] eqn:Ec. simpl in Hc. subst d0.
      by eapply password_delivery.
  - unfold main. by rewrite E.
  - unfold main. by rewrite E.
Qed.

End Delivery.

Lemma clipboard_holds_shown_password_witness :
  ∃ pw, Print (nl +:+ "Your generated password: " +:+ pw)
          ∈ shown (main int_sample lower_sample exc_text_sample env_sample
                        [Line "12"; Line "yes"] (script_still 8)) ∧
        (ViaProgram ["xsel"; "-b"] (list_byte_of_string "aA0!bbbbbbbb") = ViaPyperclip pw ∨
         ∃ argv, ViaProgram ["xsel"; "-b"] (list_byte_of_string "aA0!bbbbbbbb")
                 = ViaProgram argv (list_byte_of_string pw)) ∧
        ended (main int_sample lower_sample exc_text_sample env_sample
                    [Line "12"; Line "yes"] (script_still 8)) = Finished.
Proof.
  apply (clipboard_holds_shown_password int_sample lower_sample exc_text_sample
           env_sample [Line "12"; Line "yes"] (script_still 8)
           (ViaProgram ["xsel"; "-b"] (list_byte_of_string "aA0!bbbbbbbb"))).
  vm_compute. reflexivity.
Defined.
